(** * Omni-Help: a shallow embedding of the repository's Python sources

    The development follows the layout of the repository:

    - [py]           the fragment of Python the sources rely on (exceptions,
                     dynamically typed values, truthiness, [==]);
    - [state]        src/graph/state.py
    - [router]       src/agents/router.py
    - [nodes]        src/graph/nodes.py
    - [settings]     src/config/settings.py
    - [eval_router]  tests/evaluation/eval_router.py
    - [orchestrator] the graph executor, which the repository does not
                     contain; it is modelled from the specification.

    Definitions come first, the theorems about them follow. *)

From Stdlib Require Import ZArith QArith Floats Lia.
From stdpp Require Import base option list strings gmap.

Local Open Scope string_scope.
Set Warnings "-inexact-float".

(* ===================================================================== *)
(** ** Python fragment *)
(* ===================================================================== *)

Module py.

(** The exceptions the sources can raise. *)
Inductive exn : Type :=
| NotImplementedError (msg : string)
| KeyError (key : string)
| ValidationError (field : string).

Definition exn_message (e : exn) : string :=
  match e with
  | NotImplementedError m => m
  | KeyError k => k
  | ValidationError f => f
  end.

(** A call either returns a value or raises. *)
Inductive result (A : Type) : Type :=
| Return (a : A)
| Raise (e : exn).
Arguments Return {A} a.
Arguments Raise {A} e.

Definition bind {A B} (m : result A) (k : A -> result B) : result B :=
  match m with
  | Return a => k a
  | Raise e => Raise e
  end.

Definition returns {A} (m : result A) : bool :=
  match m with Return _ => true | Raise _ => false end.

(** Values of type [Any] as they come out of [json.load] and the
    dict literals of the sources: [None], booleans, integers, floats,
    strings, lists and objects.  A float carries the identity of its
    object ([obj]): comparisons inside a list or a dict hold for one and
    the same object before [==] is asked, which is what makes a list that
    holds a NaN equal to itself.  An object is its list of items; its keys
    are distinct, as in a dict. *)
#[warnings="-register-all"]
Inductive value : Type :=
| VNone
| VBool (b : bool)
| VInt (z : Z)
| VFloat (f : float) (obj : nat)
| VStr (s : string)
| VList (l : list value)
| VDict (items : list (string * value)).

(** Truth value testing ([if v:]). *)
Definition truthy (v : value) : bool :=
  match v with
  | VNone => false
  | VBool b => b
  | VInt z => negb (z =? 0)%Z
  | VFloat f _ => negb (f =? 0)%float
  | VStr s => negb (String.eqb s "")
  | VList l => match l with [] => false | _ => true end
  | VDict items => match items with [] => false | _ => true end
  end.

(** [f == z] for a float and an integer: the comparison is exact. *)
Definition float_eq_int (f : float) (z : Z) : bool :=
  match Prim2SF f with
  | S754_zero _ => (z =? 0)%Z
  | S754_infinity _ | S754_nan => false
  | S754_finite sign m e =>
      let signed := if sign then Z.neg m else Z.pos m in
      if (0 <=? e)%Z then (z =? signed * 2 ^ e)%Z
      else ((signed mod 2 ^ (- e) =? 0) && (z =? signed / 2 ^ (- e)))%Z
  end.

(** [a is b], where it can change a comparison: two floats are the same
    object.  For the other values [==] holds of an object and itself. *)
Definition same (a b : value) : bool :=
  match a, b with
  | VFloat _ i, VFloat _ j => Nat.eqb i j
  | _, _ => false
  end.

(** [d.get(k)] on the items of an object. *)
Fixpoint assoc (k : string) (items : list (string * value)) : option value :=
  match items with
  | [] => None
  | (k', v) :: items' => if String.eqb k k' then Some v else assoc k items'
  end.

(** [a == b].  [bool] is a subclass of [int], so [True == 1]; floats
    compare by value, so a NaN is not equal to itself; the items of lists
    and dicts are compared as [x is y or x == y]. *)
Fixpoint eq (a b : value) {struct a} : bool :=
  match a, b with
  | VNone, VNone => true
  | VBool x, VBool y => Bool.eqb x y
  | VInt x, VInt y => (x =? y)%Z
  | VBool x, VInt y | VInt y, VBool x => ((if x then 1 else 0) =? y)%Z
  | VFloat f _, VFloat g _ => (f =? g)%float
  | VFloat f _, VInt z | VInt z, VFloat f _ => float_eq_int f z
  | VFloat f _, VBool x | VBool x, VFloat f _ => float_eq_int f (if x then 1 else 0)
  | VStr x, VStr y => String.eqb x y
  | VList xs, VList ys =>
      (fix eq_list (xs ys : list value) {struct xs} : bool :=
         match xs, ys with
         | [], [] => true
         | x :: xs', y :: ys' => (same x y || eq x y) && eq_list xs' ys'
         | _, _ => false
         end) xs ys
  | VDict xs, VDict ys =>
      Nat.eqb (length xs) (length ys)
      && (fix eq_items (xs : list (string * value)) {struct xs} : bool :=
            match xs with
            | [] => true
            | (k, x) :: xs' =>
                match assoc k ys with
                | Some y => same x y || eq x y
                | None => false
                end && eq_items xs'
            end) xs
  | _, _ => false
  end.

(** [s.lower()] on an ASCII string, which the names of environment
    variables are. *)
Definition lower_ascii (c : Ascii.ascii) : Ascii.ascii :=
  let n := Ascii.nat_of_ascii c in
  if Nat.leb 65 n && Nat.leb n 90 then Ascii.ascii_of_nat (n + 32) else c.

Fixpoint lower (s : string) : string :=
  match s with
  | EmptyString => EmptyString
  | String c s' => String (lower_ascii c) (lower s')
  end.

End py.

#[export] Instance result_bind : MBind py.result :=
  fun A B k m => py.bind m k.
#[export] Instance result_ret : MRet py.result := @py.Return.

(* ===================================================================== *)
(** ** src/graph/state.py *)
(* ===================================================================== *)

Module state.

(** [IntentType = Literal["policy", "sql", "web", "product_info",
    "complaint"]] *)
Inductive IntentType : Type :=
| intent_policy
| intent_sql
| intent_web
| intent_product_info
| intent_complaint.

Definition IntentType_literals : list string :=
  ["policy"; "sql"; "web"; "product_info"; "complaint"].

Definition IntentType_value (i : IntentType) : string :=
  match i with
  | intent_policy => "policy"
  | intent_sql => "sql"
  | intent_web => "web"
  | intent_product_info => "product_info"
  | intent_complaint => "complaint"
  end.

(** [RouteType = Literal["policy", "sql", "web", "clarification",
    "fallback"]] *)
Inductive RouteType : Type :=
| policy
| sql
| web
| clarification
| fallback.

Definition RouteType_literals : list string :=
  ["policy"; "sql"; "web"; "clarification"; "fallback"].

Definition RouteType_value (r : RouteType) : string :=
  match r with
  | policy => "policy"
  | sql => "sql"
  | web => "web"
  | clarification => "clarification"
  | fallback => "fallback"
  end.

(** Membership of a string in the [Literal] type. *)
Definition is_RouteType (s : string) : bool :=
  bool_decide (s ∈ RouteType_literals).

(** Modelled from the spec: [BaseMessage] is imported from
    [langchain_core.messages] and its declaration is not part of the
    repository; the specification describes a conversation entry as
    (role, content, timestamp). *)
Record BaseMessage : Type := {
  role : string;
  content : string;
  timestamp : Z;
}.

(** [class AgentState(TypedDict, total=False)]: every key may be absent
    (outer [option]); a key annotated [Optional[...]] may moreover hold
    [None] (inner [option]).  The same record is the type of the partial
    updates the nodes return.  The fields carry the types of the
    annotations; Python does not check them when the program runs, so
    that a field has a value of its type is a convention of the record and
    nothing the theorems below establish. *)
Record AgentState : Type := {
  messages : option (list BaseMessage);
  user_query : option string;
  intent : option IntentType;
  confidence : option float;
  missing_info : option (list string);
  routing_rationale : option (option string);
  route : option RouteType;
  retrieved_docs : option (list py.value);
  policy_context : option (option string);
  sql_query : option (option string);
  sql_result : option (option (list (gmap string py.value)));
  sql_error : option (option string);
  web_results : option (option (list (gmap string py.value)));
  web_context : option (option string);
  fallback_reason : option (option string);
  handoff_context : option (option (gmap string py.value));
  final_response : option (option string);
  error : option (option string);
}.

(** The empty dict [{}]. *)
Definition empty : AgentState := {|
  messages := None; user_query := None; intent := None;
  confidence := None; missing_info := None; routing_rationale := None;
  route := None; retrieved_docs := None; policy_context := None;
  sql_query := None; sql_result := None; sql_error := None;
  web_results := None; web_context := None; fallback_reason := None;
  handoff_context := None; final_response := None; error := None;
|}.

(** A key of type [Optional[T]] is set when it is present and not
    [None]. *)
Definition is_set {A} (field : option (option A)) : bool :=
  match field with
  | Some (Some _) => true
  | _ => false
  end.

End state.

(* ===================================================================== *)
(** ** src/agents/router.py *)
(* ===================================================================== *)

Module router.

(** [def route(state: AgentState) -> dict]: the body is the single
    statement [raise NotImplementedError("Router implementation in
    Phase 1")]. *)
Definition route (s : state.AgentState) : py.result state.AgentState :=
  py.Raise (py.NotImplementedError "Router implementation in Phase 1").

End router.

(* ===================================================================== *)
(** ** src/graph/nodes.py *)
(* ===================================================================== *)

Module nodes.

Definition router_node (s : state.AgentState) : py.result state.AgentState :=
  py.Raise (py.NotImplementedError "Phase 1").

Definition clarification_node (s : state.AgentState) : py.result state.AgentState :=
  py.Raise (py.NotImplementedError "Phase 1 / 3").

Definition retriever_node (s : state.AgentState) : py.result state.AgentState :=
  py.Raise (py.NotImplementedError "Phase 4").

Definition sql_node (s : state.AgentState) : py.result state.AgentState :=
  py.Raise (py.NotImplementedError "Phase 5").

Definition web_node (s : state.AgentState) : py.result state.AgentState :=
  py.Raise (py.NotImplementedError "Phase 6").

Definition fallback_node (s : state.AgentState) : py.result state.AgentState :=
  py.Raise (py.NotImplementedError "Phase 7").

Definition synthesis_node (s : state.AgentState) : py.result state.AgentState :=
  py.Raise (py.NotImplementedError "Phase 3+").

End nodes.

(* ===================================================================== *)
(** ** src/config/settings.py *)
(* ===================================================================== *)

Module settings.

(** The scalar annotations a settings class can carry; the body of
    [class Settings] uses the first four. *)
Inductive annotation : Type :=
| Optional_str
| Bool
| Str
| Float
| Int.

(** A default as written in [Field(default=...)]. *)
Inductive default_value : Type :=
| DNone
| DBool (b : bool)
| DStr (s : string)
| DFloat (f : float)
| DInt (z : Z).

(** One attribute of the class body: name, annotation, [default=] and the
    numeric constraints [ge=] and [le=]. *)
Record FieldInfo : Type := {
  name : string;
  annot : annotation;
  default : default_value;
  ge : option float;
  le : option float;
}.

Definition field (n : string) (a : annotation) (d : default_value) : FieldInfo :=
  {| name := n; annot := a; default := d; ge := None; le := None |}.

(** The class body of [Settings], attribute by attribute, in source order. *)
Definition model_fields : list FieldInfo := [
  field "openai_api_key" Optional_str DNone;
  field "tavily_api_key" Optional_str DNone;
  field "langchain_tracing_v2" Bool (DBool false);
  field "langchain_api_key" Optional_str DNone;
  field "langchain_project" Optional_str (DStr "omni-help");
  field "database_url" Str (DStr "sqlite+aiosqlite:///./data/omnihelp.db");
  field "chroma_persist_directory" Optional_str (DStr "./data/chroma");
  field "qdrant_url" Optional_str DNone;
  field "qdrant_api_key" Optional_str DNone;
  {| name := "router_confidence_threshold"; annot := Float;
     default := DFloat 0.7; ge := Some 0.0%float; le := Some 1.0%float |}
].

Definition lookup_field (n : string) : option FieldInfo :=
  List.find (fun fi => String.eqb (name fi) n) model_fields.

(** An instance of [Settings]. *)
Record Settings : Type := {
  openai_api_key : option string;
  tavily_api_key : option string;
  langchain_tracing_v2 : bool;
  langchain_api_key : option string;
  langchain_project : option string;
  database_url : string;
  chroma_persist_directory : option string;
  qdrant_url : option string;
  qdrant_api_key : option string;
  router_confidence_threshold : float;
}.

(** The variables pydantic-settings reads: those of the process
    environment and of the [.env] file, under the names they are set
    with. *)
Abbreviation Env := (gmap string string).

(** [case_sensitive=False]: the names of the variables are lower-cased
    before an attribute is looked up, so [DATABASE_URL] and [database_url]
    both set [database_url].  When several variables fold to one name the
    library keeps the last one [os.environ] lists; a map has no order, so
    the embedding keeps one of them, and nothing below depends on which. *)
Definition lookup_folded (env : Env) (n : string) : option string :=
  snd <$> head (map_to_list (filter (fun kv : string * string => py.lower kv.1 = n) env)).

(** Some variable whose name folds to [n] holds [raw]. *)
Definition reads (env : Env) (n raw : string) : Prop :=
  exists k, py.lower k = n /\ env !! k = Some raw.

(** No variable whose name folds to [n] is set. *)
Definition silent (env : Env) (n : string) : Prop :=
  forall k, py.lower k = n -> env !! k = None.


Section Loading.

(** The coercions of an environment string to [bool], [float] and [int]
    are pydantic's. *)
Variable parse_bool : string -> option bool.
Variable parse_float : string -> option float.
Variable parse_int : string -> option Z.

(** The value of one attribute: the environment wins over the default; a
    value that cannot be coerced, or that breaks [ge]/[le], is a
    [ValidationError]. *)
Definition within (fi : FieldInfo) (x : float) : bool :=
  match ge fi with Some lo => (lo <=? x)%float | None => true end
  && match le fi with Some hi => (x <=? hi)%float | None => true end.

Definition validate (fi : FieldInfo) (env : Env) : py.result default_value :=
  match lookup_folded env (py.lower (name fi)) with
  | None => py.Return (default fi)
  | Some raw =>
      match annot fi with
      | Optional_str | Str => py.Return (DStr raw)
      | Bool =>
          match parse_bool raw with
          | Some b => py.Return (DBool b)
          | None => py.Raise (py.ValidationError (name fi))
          end
      | Float =>
          match parse_float raw with
          | Some x =>
              if within fi x then py.Return (DFloat x)
              else py.Raise (py.ValidationError (name fi))
          | None => py.Raise (py.ValidationError (name fi))
          end
      | Int =>
          match parse_int raw with
          | Some z => py.Return (DInt z)
          | None => py.Raise (py.ValidationError (name fi))
          end
      end
  end.

Definition get (n : string) (env : Env) : py.result default_value :=
  match lookup_field n with
  | Some fi => validate fi env
  | None => py.Raise (py.KeyError n)
  end.

Definition as_optional_str (n : string) (d : default_value) : py.result (option string) :=
  match d with
  | DNone => py.Return None
  | DStr s => py.Return (Some s)
  | _ => py.Raise (py.ValidationError n)
  end.

Definition as_str (n : string) (d : default_value) : py.result string :=
  match d with
  | DStr s => py.Return s
  | _ => py.Raise (py.ValidationError n)
  end.

Definition as_bool (n : string) (d : default_value) : py.result bool :=
  match d with
  | DBool b => py.Return b
  | _ => py.Raise (py.ValidationError n)
  end.

Definition as_float (n : string) (d : default_value) : py.result float :=
  match d with
  | DFloat x => py.Return x
  | _ => py.Raise (py.ValidationError n)
  end.

(** [Settings()]: every attribute is read from the environment or takes its
    default. *)
Definition Settings_init (env : Env) : py.result Settings :=
  a ← get "openai_api_key" env ≫= as_optional_str "openai_api_key";
  b ← get "tavily_api_key" env ≫= as_optional_str "tavily_api_key";
  c ← get "langchain_tracing_v2" env ≫= as_bool "langchain_tracing_v2";
  d ← get "langchain_api_key" env ≫= as_optional_str "langchain_api_key";
  e ← get "langchain_project" env ≫= as_optional_str "langchain_project";
  f ← get "database_url" env ≫= as_str "database_url";
  g ← get "chroma_persist_directory" env ≫= as_optional_str "chroma_persist_directory";
  h ← get "qdrant_url" env ≫= as_optional_str "qdrant_url";
  i ← get "qdrant_api_key" env ≫= as_optional_str "qdrant_api_key";
  j ← get "router_confidence_threshold" env ≫= as_float "router_confidence_threshold";
  py.Return {|
    openai_api_key := a; tavily_api_key := b; langchain_tracing_v2 := c;
    langchain_api_key := d; langchain_project := e; database_url := f;
    chroma_persist_directory := g; qdrant_url := h; qdrant_api_key := i;
    router_confidence_threshold := j;
  |}.

(** A Python object: its identity ([id(obj)]) and its contents. *)
Record object : Type := {
  object_id : nat;
  object_value : Settings;
}.

(** The part of the process [get_settings] touches: the environment, the
    slot of the [lru_cache] wrapper for the only key a function without
    arguments has, the allocator, and a count of how often the environment
    was read. *)
Record process : Type := {
  environ : Env;
  cache : option object;
  next_id : nat;
  env_reads : nat;
}.

(** [@lru_cache def get_settings(): return Settings()].  A hit returns the
    stored object; a miss calls the body and stores what it returns.  A body
    that raises stores nothing. *)
Definition get_settings (p : process) : py.result object * process :=
  match cache p with
  | Some o => (py.Return o, p)
  | None =>
      let p' := {| environ := environ p; cache := cache p;
                   next_id := next_id p; env_reads := S (env_reads p) |} in
      match Settings_init (environ p) with
      | py.Return v =>
          let o := {| object_id := next_id p; object_value := v |} in
          (py.Return o,
           {| environ := environ p; cache := Some o;
              next_id := S (next_id p); env_reads := env_reads p' |})
      | py.Raise e => (py.Raise e, p')
      end
  end.

(** What else happens in the process between two calls: the environment
    may change. *)
Inductive event : Type :=
| call
| setenv (key value : string)
| unsetenv (key : string).

Definition step (p : process) (ev : event) : list (py.result object) * process :=
  match ev with
  | call => let '(r, p') := get_settings p in ([r], p')
  | setenv k v =>
      ([], {| environ := <[k := v]> (environ p); cache := cache p;
              next_id := next_id p; env_reads := env_reads p |})
  | unsetenv k =>
      ([], {| environ := delete k (environ p); cache := cache p;
              next_id := next_id p; env_reads := env_reads p |})
  end.

(** Runs a sequence of events; returns what the calls among them returned,
    in order. *)
Fixpoint run (p : process) (evs : list event) : list (py.result object) * process :=
  match evs with
  | [] => ([], p)
  | ev :: evs' =>
      let '(rs, p') := step p ev in
      let '(rs', p'') := run p' evs' in
      ((rs ++ rs')%list, p'')
  end.

(** A process that has not called [get_settings] yet. *)
Definition start (env : Env) : process :=
  {| environ := env; cache := None; next_id := 0; env_reads := 0 |}.

End Loading.

End settings.

(* ===================================================================== *)
(** ** tests/evaluation/eval_router.py *)
(* ===================================================================== *)

Module eval_router.

(** A [dict[str, Any]]. *)
Abbreviation dict := (gmap string py.value).

(** [d[k]] *)
Definition getitem (d : dict) (k : string) : py.result py.value :=
  match d !! k with
  | Some v => py.Return v
  | None => py.Raise (py.KeyError k)
  end.

(** [d.get(k, dflt)] *)
Definition get (d : dict) (k : string) (dflt : py.value) : py.value :=
  default dflt (d !! k).

(** The body of the [for item in data] loop of [run_router_on_dataset]:
    the record appended to [results]. *)
Definition run_router_on_item (router_fn : option (dict -> py.result dict))
    (item : dict) : py.result dict :=
  expected ← getitem item "intent";
  predicted ←
    match router_fn with
    | None => py.Return expected
    | Some f =>
        query ← getitem item "query";
        out ← f (<["user_query" := query]> (<["messages" := py.VList []]> ∅));
        py.Return (get out "intent" expected)
    end;
  id ← getitem item "id";
  query ← getitem item "query";
  py.Return (<["id" := id]> (<["query" := query]>
            (<["expected_intent" := expected]>
            (<["predicted_intent" := predicted]>
            (<["correct" := py.VBool (py.eq predicted expected)]> ∅))))).

(** [run_router_on_dataset(router_fn)], on the list [load_golden_dataset()]
    returned: the first exception ends the loop. *)
Fixpoint run_router_on_dataset (data : list dict)
    (router_fn : option (dict -> py.result dict)) : py.result (list dict) :=
  match data with
  | [] => py.Return []
  | item :: data' =>
      r ← run_router_on_item router_fn item;
      rs ← run_router_on_dataset data' router_fn;
      py.Return (r :: rs)
  end.

(** [sum(1 for r in results if r["correct"])] *)
Fixpoint sum_correct (results : list dict) : py.result nat :=
  match results with
  | [] => py.Return 0
  | r :: results' =>
      c ← getitem r "correct";
      n ← sum_correct results';
      py.Return ((if py.truthy c then 1 else 0) + n)
  end.

(** [compute_accuracy(results)].  The operands of [/] are integers and its
    value is the float nearest to their quotient; the embedding keeps the
    quotient itself, as a rational. *)
Definition compute_accuracy (results : list dict) : py.result Q :=
  match results with
  | [] => py.Return 0%Q
  | _ :: _ =>
      c ← sum_correct results;
      py.Return (Z.of_nat c # Pos.of_nat (length results))%Q
  end.

(** The record has a ['correct'] field. *)
Definition has_correct (r : dict) : Prop := is_Some (r !! "correct").

(** The records whose ['correct'] field is true. *)
Definition correct_records (results : list dict) : list dict :=
  List.filter (fun r => match r !! "correct" with
                        | Some c => py.truthy c
                        | None => false
                        end) results.

End eval_router.

(* ===================================================================== *)
(** ** tests/evaluation/eval_router.py: the test functions *)
(* ===================================================================== *)

Module eval_router_tests.

Import eval_router.

(** How a test function ends: it passes, an [assert] fails, or another
    exception leaves it. *)
Inductive outcome : Type :=
| passed
| AssertionError
| error (e : py.exn).

(** An item of the golden dataset the harness can process without a
    router: it has the keys ['intent'], ['id'] and ['query']. *)
Definition well_formed (item : dict) : Prop :=
  is_Some (item !! "intent") /\ is_Some (item !! "id") /\ is_Some (item !! "query").

(** [[d["intent"] for d in data]] *)
Fixpoint intents (data : list dict) : py.result (list py.value) :=
  match data with
  | [] => py.Return []
  | d :: data' =>
      i ← getitem d "intent";
      rest ← intents data';
      py.Return (i :: rest)
  end.

(** [l.count(x)] *)
Definition count (l : list py.value) (x : py.value) : nat :=
  length (List.filter (fun y => py.eq y x) l).

(** [for intent in names: assert intents.count(intent) == 2] *)
Fixpoint assert_two_of_each (l : list py.value) (names : list string) : outcome :=
  match names with
  | [] => passed
  | n :: names' =>
      if Nat.eqb (count l (py.VStr n)) 2 then assert_two_of_each l names'
      else AssertionError
  end.

(** [test_golden_dataset_loads], on the list [load_golden_dataset()]
    returned. *)
Definition test_golden_dataset_loads (data : list dict) : outcome :=
  if Nat.eqb (length data) 10 then
    match intents data with
    | py.Raise e => error e
    | py.Return l =>
        assert_two_of_each l ["policy"; "sql"; "web"; "product_info"; "complaint"]
    end
  else AssertionError.

(** [test_eval_harness_stub], on the list [load_golden_dataset()] returned.
    The accuracy is compared with [1.0]; the list has ten records at that
    point, so the float is [1.0] exactly when the quotient is 1. *)
Definition test_eval_harness_stub (data : list dict) : outcome :=
  match run_router_on_dataset data None with
  | py.Raise e => error e
  | py.Return results =>
      if Nat.eqb (length results) 10 then
        match compute_accuracy results with
        | py.Raise e => error e
        | py.Return q => if Qeq_bool q 1 then passed else AssertionError
        end
      else AssertionError
  end.

(** The expected intent of an item is equal to itself under [==]: every
    value but a NaN (and a container whose items differ from
    themselves). *)
Definition intent_self_equal (item : dict) : Prop :=
  forall expected, item !! "intent" = Some expected -> py.eq expected expected = true.

(** A value that is one of the five intent literals. *)
Definition is_intent (v : py.value) : Prop :=
  exists i : state.IntentType, v = py.VStr (state.IntentType_value i).

(** The state [run_router_on_dataset] hands to the router for a query. *)
Definition router_input (query : py.value) : dict :=
  <["user_query" := query]> (<["messages" := py.VList []]> ∅).

(** What [run_router_on_dataset] records for one item: the record copies
    the item's id, query and intent, and ['correct'] compares the predicted
    intent with the expected one. *)
Definition records (item r : dict) : Prop :=
  r !! "id" = item !! "id"
  /\ r !! "query" = item !! "query"
  /\ r !! "expected_intent" = item !! "intent"
  /\ exists predicted expected,
       r !! "predicted_intent" = Some predicted
       /\ item !! "intent" = Some expected
       /\ r !! "correct" = Some (py.VBool (py.eq predicted expected)).

End eval_router_tests.

(* ===================================================================== *)
(** ** The graph executor *)
(* ===================================================================== *)

Module orchestrator.

Import state.

(** Modelled from the spec: the reducer [add_messages] is imported from
    [langgraph.graph.message] and is not part of the repository; state.py
    only attaches it to [messages] ("reducer: append").  The specification
    gives the merge function as [(existing, incoming) -> existing ++
    incoming]. *)
Definition add_messages (existing incoming : list BaseMessage) : list BaseMessage :=
  (existing ++ incoming)%list.

(** The conversation history of a state, or the entries a partial update
    brings; an absent [messages] key is the empty sequence. *)
Definition history (s : AgentState) : list BaseMessage :=
  default [] (messages s).

(** Modelled from the spec: the executor's merge of one key, which the
    repository does not contain; a returned key overwrites, an omitted key
    persists. *)
Definition overwrite {A} (old new : option A) : option A :=
  match new with
  | Some _ => new
  | None => old
  end.

(** Modelled from the spec: the merge of a node's partial update into the
    shared state is done by the graph executor, which the repository does
    not contain.  The specification describes a shallow merge (returned
    keys overwrite, omitted keys persist) with the conversation history
    going through the append reducer. *)
Definition merge (s u : AgentState) : AgentState := {|
  messages :=
    match messages u with
    | Some incoming => Some (add_messages (history s) incoming)
    | None => messages s
    end;
  user_query := overwrite (user_query s) (user_query u);
  intent := overwrite (intent s) (intent u);
  confidence := overwrite (confidence s) (confidence u);
  missing_info := overwrite (missing_info s) (missing_info u);
  routing_rationale := overwrite (routing_rationale s) (routing_rationale u);
  route := overwrite (route s) (route u);
  retrieved_docs := overwrite (retrieved_docs s) (retrieved_docs u);
  policy_context := overwrite (policy_context s) (policy_context u);
  sql_query := overwrite (sql_query s) (sql_query u);
  sql_result := overwrite (sql_result s) (sql_result u);
  sql_error := overwrite (sql_error s) (sql_error u);
  web_results := overwrite (web_results s) (web_results u);
  web_context := overwrite (web_context s) (web_context u);
  fallback_reason := overwrite (fallback_reason s) (fallback_reason u);
  handoff_context := overwrite (handoff_context s) (handoff_context u);
  final_response := overwrite (final_response s) (final_response u);
  error := overwrite (error s) (error u);
|}.

(** Modelled from the spec: the partial update of a fatal error, which
    sets [error]; the executor that applies it is not in the repository. *)
Definition error_update (msg : string) : AgentState := {|
  messages := None; user_query := None; intent := None;
  confidence := None; missing_info := None; routing_rationale := None;
  route := None; retrieved_docs := None; policy_context := None;
  sql_query := None; sql_result := None; sql_error := None;
  web_results := None; web_context := None; fallback_reason := None;
  handoff_context := None; final_response := None;
  error := Some (Some msg);
|}.

(** Modelled from the spec: the partial update the executor applies when
    the clarification limit is exceeded; the executor is not in the
    repository. *)
Definition forced_fallback_update : AgentState := {|
  messages := None; user_query := None; intent := None;
  confidence := None; missing_info := None; routing_rationale := None;
  route := Some fallback;
  retrieved_docs := None; policy_context := None;
  sql_query := None; sql_result := None; sql_error := None;
  web_results := None; web_context := None;
  fallback_reason := Some (Some "clarification_limit_exceeded");
  handoff_context := None; final_response := None; error := None;
|}.

(** Modelled from the spec: the partial update that appends the next
    user turn after a clarifying question; the executor is not in the
    repository. *)
Definition turn_update (turn : BaseMessage) : AgentState := {|
  messages := Some [turn]; user_query := None; intent := None;
  confidence := None; missing_info := None; routing_rationale := None;
  route := None; retrieved_docs := None; policy_context := None;
  sql_query := None; sql_result := None; sql_error := None;
  web_results := None; web_context := None; fallback_reason := None;
  handoff_context := None; final_response := None; error := None;
|}.

(** Modelled from the spec: the state a request starts from, created by
    the entry point, which the repository does not contain; only the query
    and the prior history are set. *)
Definition initial (userQuery : string) (priorHistory : list BaseMessage) : AgentState := {|
  messages := Some priorHistory; user_query := Some userQuery; intent := None;
  confidence := None; missing_info := None; routing_rationale := None;
  route := None; retrieved_docs := None; policy_context := None;
  sql_query := None; sql_result := None; sql_error := None;
  web_results := None; web_context := None; fallback_reason := None;
  handoff_context := None; final_response := None; error := None;
|}.

(** No terminal field is set yet. *)
Definition pending (s : AgentState) : Prop :=
  is_set (final_response s) = false /\ is_set (error s) = false.

(** Exactly one of the two terminal fields is set. *)
Definition exactly_one_terminal (s : AgentState) : Prop :=
  xorb (is_set (final_response s)) (is_set (error s)) = true.

(** Modelled from the spec: the nodes of the executor's state machine
    that have a handler (entry and terminal have none); the executor is
    not in the repository. *)
Inductive node : Type :=
| Router
| PolicyHandler
| OrderHandler
| WebHandler
| ClarificationHandler
| FallbackHandler
| Synthesizer.

(** Modelled from the spec: the executor's edge table, which the
    repository does not contain; the Router's [route] selects the node. *)
Definition node_of_route (r : RouteType) : node :=
  match r with
  | policy => PolicyHandler
  | sql => OrderHandler
  | web => WebHandler
  | clarification => ClarificationHandler
  | fallback => FallbackHandler
  end.

Section Graph.

(** The handler table: every node is a function from the shared state to a
    partial update, and may fail. *)
Variable handler : node -> AgentState -> py.result AgentState.

(** The maximum number of clarification re-routes. *)
Variable max_reroutes : nat.

(** The user's turn that answers the clarifying question number [k],
    counted from 0. *)
Variable user_turn : nat -> BaseMessage.

(** Modelled from the spec: a fatal error, here an exception that leaves
    a handler or a missing route, sets [error], and the executor halts
    there, skipping the Synthesizer; the executor is not in the
    repository. *)
Definition fatal (s : AgentState) (e : py.exn) : AgentState :=
  merge s (error_update (py.exn_message e)).

(** Modelled from the spec: the step into the Synthesizer, the last node
    before the terminal state; the executor is not in the repository. *)
Definition synthesize (s : AgentState) : AgentState :=
  match handler Synthesizer s with
  | py.Raise e => fatal s e
  | py.Return u => merge s u
  end.

(** Modelled from the spec: the step into a branch handler, which the
    repository's missing executor takes; after the handler returns,
    control passes to the Synthesizer, unless [error] is set. *)
Definition branch (n : node) (s : AgentState) : AgentState :=
  match handler n s with
  | py.Raise e => fatal s e
  | py.Return u =>
      let s' := merge s u in
      if is_set (error s') then s' else synthesize s'
  end.

(** Modelled from the spec: the executor's loop, which the repository
    does not contain.  [remaining] is the bounded counter checked before
    each Router dispatch ([asked] counts the clarifications so far): once
    it is used up the route is forced to fallback; otherwise the Router
    runs, and a route to clarification runs the ClarificationHandler, takes
    the next user turn and comes back to the Router. *)
Fixpoint dispatch (remaining asked : nat) (s : AgentState) : AgentState :=
  match remaining with
  | 0 => branch FallbackHandler (merge s forced_fallback_update)
  | S k =>
      match handler Router s with
      | py.Raise e => fatal s e
      | py.Return u =>
          let s1 := merge s u in
          if is_set (error s1) then s1 else
          match route s1 with
          | None => fatal s1 (py.KeyError "route")
          | Some clarification =>
              match handler ClarificationHandler s1 with
              | py.Raise e => fatal s1 e
              | py.Return c =>
                  let s2 := merge s1 c in
                  if is_set (error s2) then s2
                  else dispatch k (S asked) (merge s2 (turn_update (user_turn asked)))
              end
          | Some r => branch (node_of_route r) s1
          end
      end
  end.

(** Modelled from the spec: the entry point of the core, [run(userQuery,
    priorHistory)], which the repository does not contain; it returns the
    state at termination. *)
Definition run (userQuery : string) (priorHistory : list BaseMessage) : AgentState :=
  dispatch max_reroutes 0 (initial userQuery priorHistory).

End Graph.

(** The handler table the repository has today: the stubs of nodes.py. *)
Definition nodes_handler (n : node) : AgentState -> py.result AgentState :=
  match n with
  | Router => nodes.router_node
  | PolicyHandler => nodes.retriever_node
  | OrderHandler => nodes.sql_node
  | WebHandler => nodes.web_node
  | ClarificationHandler => nodes.clarification_node
  | FallbackHandler => nodes.fallback_node
  | Synthesizer => nodes.synthesis_node
  end.

End orchestrator.

(* ===================================================================== *)
(** ** Inputs the theorems are stated on *)
(* ===================================================================== *)

(** The specification's low-confidence scenario: the query "asdkjf",
    classified as web with confidence 0.3. *)
Definition low_confidence_query : state.AgentState := {|
  state.messages := Some []; state.user_query := Some "asdkjf";
  state.intent := Some state.intent_web; state.confidence := Some 0.3%float;
  state.missing_info := Some []; state.routing_rationale := None;
  state.route := None; state.retrieved_docs := None;
  state.policy_context := None; state.sql_query := None;
  state.sql_result := None; state.sql_error := None;
  state.web_results := None; state.web_context := None;
  state.fallback_reason := None; state.handoff_context := None;
  state.final_response := None; state.error := None;
|}.

(** A state that already carries a classification: intent [product_info]
    with confidence 0.9 and nothing missing. *)
Definition product_info_query : state.AgentState := {|
  state.messages := Some []; state.user_query := Some "Is the jacket waterproof?";
  state.intent := Some state.intent_product_info;
  state.confidence := Some 0.9%float;
  state.missing_info := Some []; state.routing_rationale := None;
  state.route := None; state.retrieved_docs := None;
  state.policy_context := None; state.sql_query := None;
  state.sql_result := None; state.sql_error := None;
  state.web_results := None; state.web_context := None;
  state.fallback_reason := None; state.handoff_context := None;
  state.final_response := None; state.error := None;
|}.

(** Three records in the shape [run_router_on_dataset] builds, two of them
    correct. *)
Definition result_record (id query expected predicted : string) : gmap string py.value :=
  <["id" := py.VStr id]> (<["query" := py.VStr query]>
  (<["expected_intent" := py.VStr expected]>
  (<["predicted_intent" := py.VStr predicted]>
  (<["correct" := py.VBool (py.eq (py.VStr predicted) (py.VStr expected))]> ∅)))).

Definition sample_results : list (gmap string py.value) :=
  [result_record "p1" "What is your return policy?" "policy" "policy";
   result_record "s1" "Where is my order 1234?" "sql" "web";
   result_record "w1" "Tell me a joke" "web" "web"].

(** Coercions that accept nothing: enough for an environment that sets no
    typed variable. *)
Definition no_bool (raw : string) : option bool := None.
Definition no_float (raw : string) : option float := None.
Definition no_int (raw : string) : option Z := None.

(** The instance [Settings()] builds when the environment sets nothing. *)
Definition default_settings : settings.Settings := {|
  settings.openai_api_key := None;
  settings.tavily_api_key := None;
  settings.langchain_tracing_v2 := false;
  settings.langchain_api_key := None;
  settings.langchain_project := Some "omni-help";
  settings.database_url := "sqlite+aiosqlite:///./data/omnihelp.db";
  settings.chroma_persist_directory := Some "./data/chroma";
  settings.qdrant_url := None;
  settings.qdrant_api_key := None;
  settings.router_confidence_threshold := 0.7;
|}.

Definition first_object : settings.object :=
  {| settings.object_id := 0; settings.object_value := default_settings |}.

Definition after_first_call : settings.process :=
  {| settings.environ := ∅; settings.cache := Some first_object;
     settings.next_id := 1; settings.env_reads := 1 |}.

(** Two more calls, with the threshold changed in the environment in
    between. *)
Definition later_events : list settings.event :=
  [settings.call;
   settings.setenv "router_confidence_threshold" "0.2";
   settings.call].

(** A handler table for the specification's return-policy scenario: the
    Router classifies the query as policy with confidence 0.92, the
    PolicyHandler returns a context, the Synthesizer answers from it. *)
Definition scenario_router (s : state.AgentState) : state.AgentState := {|
  state.messages := None; state.user_query := None;
  state.intent := Some state.intent_policy;
  state.confidence := Some 0.92%float;
  state.missing_info := Some [];
  state.routing_rationale := Some (Some "policy question, confidence 0.92");
  state.route := Some state.policy;
  state.retrieved_docs := None; state.policy_context := None;
  state.sql_query := None; state.sql_result := None; state.sql_error := None;
  state.web_results := None; state.web_context := None;
  state.fallback_reason := None; state.handoff_context := None;
  state.final_response := None; state.error := None;
|}.

Definition scenario_policy (s : state.AgentState) : state.AgentState := {|
  state.messages := None; state.user_query := None; state.intent := None;
  state.confidence := None; state.missing_info := None;
  state.routing_rationale := None; state.route := None;
  state.retrieved_docs := Some [];
  state.policy_context := Some (Some "Items can be returned within 30 days.");
  state.sql_query := None; state.sql_result := None; state.sql_error := None;
  state.web_results := None; state.web_context := None;
  state.fallback_reason := None; state.handoff_context := None;
  state.final_response := None; state.error := None;
|}.

Definition scenario_synthesis (s : state.AgentState) : state.AgentState := {|
  state.messages := None; state.user_query := None; state.intent := None;
  state.confidence := None; state.missing_info := None;
  state.routing_rationale := None; state.route := None;
  state.retrieved_docs := None; state.policy_context := None;
  state.sql_query := None; state.sql_result := None; state.sql_error := None;
  state.web_results := None; state.web_context := None;
  state.fallback_reason := None; state.handoff_context := None;
  state.final_response :=
    Some (Some (match state.policy_context s with
                | Some (Some ctx) => ctx
                | _ => "Your request has been handed to a colleague."
                end));
  state.error := None;
|}.

Definition scenario_handler (n : orchestrator.node)
    (s : state.AgentState) : py.result state.AgentState :=
  match n with
  | orchestrator.Router => py.Return (scenario_router s)
  | orchestrator.PolicyHandler => py.Return (scenario_policy s)
  | orchestrator.Synthesizer => py.Return (scenario_synthesis s)
  | orchestrator.OrderHandler => nodes.sql_node s
  | orchestrator.WebHandler => nodes.web_node s
  | orchestrator.ClarificationHandler => nodes.clarification_node s
  | orchestrator.FallbackHandler => py.Return state.empty
  end.

Definition no_turn (k : nat) : state.BaseMessage :=
  {| state.role := "user"; state.content := ""; state.timestamp := 0 |}.

(** A golden item, and a dataset with two items for each intent. *)
Definition golden_item (id query intent : string) : gmap string py.value :=
  <["id" := py.VStr id]> (<["query" := py.VStr query]>
  (<["intent" := py.VStr intent]> (<["notes" := py.VStr ""]> ∅))).

Definition sample_dataset : list (gmap string py.value) :=
  [golden_item "p1" "What is your return policy?" "policy";
   golden_item "p2" "Do you ship abroad?" "policy";
   golden_item "s1" "Where is my order 1234?" "sql";
   golden_item "s2" "Has order 77 shipped?" "sql";
   golden_item "w1" "Tell me a joke" "web";
   golden_item "w2" "What is the weather?" "web";
   golden_item "i1" "Is the jacket waterproof?" "product_info";
   golden_item "i2" "What sizes are there?" "product_info";
   golden_item "c1" "My parcel arrived broken" "complaint";
   golden_item "c2" "I was charged twice" "complaint"].

(** A router that answers without an ['intent'] key. *)
Definition silent_router (st : gmap string py.value) : py.result (gmap string py.value) :=
  py.Return (<["confidence" := py.VInt 1]> ∅).

(** A router that answers "policy" to every query but one, on which it
    raises. *)
Definition picky_router (st : gmap string py.value) : py.result (gmap string py.value) :=
  match st !! "user_query" with
  | Some (py.VStr q) =>
      if String.eqb q "Tell me a joke" then py.Raise (py.NotImplementedError "Phase 1")
      else py.Return (<["intent" := py.VStr "policy"]> ∅)
  | _ => py.Return ∅
  end.

(** Among the results of the calls of [get_settings()] in a run: the
    number of calls that raised, and whether a call returned. *)
Definition raised (rs : list (py.result settings.object)) : nat :=
  length (List.filter (fun r => negb (py.returns r)) rs).

Definition some_returned (rs : list (py.result settings.object)) : bool :=
  existsb py.returns rs.

(** Environments that set one variable. *)
Definition env_threshold (raw : string) : gmap string string :=
  <["router_confidence_threshold" := raw]> ∅.

Definition env_upper_threshold (raw : string) : gmap string string :=
  <["ROUTER_CONFIDENCE_THRESHOLD" := raw]> ∅.


(** A coercion that knows two decimal strings. *)
Definition two_floats (raw : string) : option float :=
  if String.eqb raw "0.2" then Some 0.2%float
  else if String.eqb raw "1.5" then Some 1.5%float
  else None.

(* ===================================================================== *)
(** * Theorems *)
(* ===================================================================== *)

(** ** The Router and the node stubs *)

Lemma route_raises (s : state.AgentState) :
  router.route s = py.Raise (py.NotImplementedError "Router implementation in Phase 1").
Proof. reflexivity. Qed.

(** C1 (Confidence Gate).  On the code, a Router visit never produces a
    route: [route] and [router_node] raise [NotImplementedError] on every
    state, in particular on the query classified with confidence 0.3,
    below the default threshold 0.7, so no visit yields a partial update
    whose route is clarification. *)
Theorem confidence_gate_not_implemented :
  (exists c, state.confidence low_confidence_query = Some c
             /\ (c <? settings.router_confidence_threshold default_settings)%float = true)
  /\ router.route low_confidence_query
    = py.Raise (py.NotImplementedError "Router implementation in Phase 1")
  /\ nodes.router_node low_confidence_query
    = py.Raise (py.NotImplementedError "Phase 1")
  /\ forall s : state.AgentState,
       ~ exists u, (router.route s = py.Return u \/ nodes.router_node s = py.Return u)
                   /\ state.route u = Some state.clarification.
Proof.
  split; [eexists; split; reflexivity|].
  split; [reflexivity|]. split; [reflexivity|].
  intros s [u [[H|H] _]]; discriminate H.
Qed.

(** C3 (classification failure).  On the code, the Router raises out of
    every invocation and returns no partial update at all, hence none with
    route = fallback and fallbackReason = "classification_failure". *)
Theorem classification_failure_not_handled :
  forall s : state.AgentState,
    py.returns (router.route s) = false
    /\ py.returns (nodes.router_node s) = false
    /\ ~ exists u, router.route s = py.Return u
                   /\ state.route u = Some state.fallback
                   /\ state.fallback_reason u = Some (Some "classification_failure").
Proof.
  intros s. split; [reflexivity|]. split; [reflexivity|].
  intros [u [H _]]. discriminate H.
Qed.

(** C4 (order branch).  On the code, [sql_node] raises
    [NotImplementedError("Phase 5")] on every state: it returns no partial
    update, so it sets neither [sql_result] nor [sql_error], and the
    exception leaves the handler. *)
Theorem sql_node_not_implemented :
  forall s : state.AgentState,
    nodes.sql_node s = py.Raise (py.NotImplementedError "Phase 5")
    /\ ~ exists u, nodes.sql_node s = py.Return u
                   /\ xorb (state.is_set (state.sql_result u))
                           (state.is_set (state.sql_error u)) = true.
Proof.
  intros s. split; [reflexivity|].
  intros [u [H _]]. discriminate H.
Qed.

(** C7 (tie-break for product_info).  On the code, the Router visit for a
    product_info query with confidence 0.9 (at or above the default
    threshold 0.7, nothing missing) raises and yields no route, neither
    policy nor web. *)
Theorem product_info_route_not_implemented :
  (exists c, state.confidence product_info_query = Some c
             /\ (settings.router_confidence_threshold default_settings <=? c)%float = true)
  /\ state.intent product_info_query = Some state.intent_product_info
  /\ state.missing_info product_info_query = Some []
  /\ router.route product_info_query
     = py.Raise (py.NotImplementedError "Router implementation in Phase 1")
  /\ ~ exists u, router.route product_info_query = py.Return u
                 /\ state.route u = Some state.policy.
Proof.
  split; [eexists; split; reflexivity|].
  split; [reflexivity|]. split; [reflexivity|]. split; [reflexivity|].
  intros [u [H _]]. discriminate H.
Qed.

(** ** The route vocabulary *)

Lemma RouteType_value_literal (r : state.RouteType) :
  state.RouteType_value r ∈ state.RouteType_literals.
Proof. destruct r; vm_compute; set_solver. Qed.

Lemma is_RouteType_spec (str : string) :
  state.is_RouteType str = true <-> exists r, state.RouteType_value r = str.
Proof.
  unfold state.is_RouteType. rewrite bool_decide_eq_true.
  unfold state.RouteType_literals. split.
  - intros H. set_unfold in H.
    destruct H as [->|[->|[->|[->|[->|[]]]]]];
      [exists state.policy | exists state.sql | exists state.web
      | exists state.clarification | exists state.fallback]; reflexivity.
  - intros [r <-]. apply RouteType_value_literal.
Qed.

(** ** The configuration surface *)

Lemma no_Int_field (fi : settings.FieldInfo) :
  fi ∈ settings.model_fields -> settings.annot fi <> settings.Int.
Proof.
  unfold settings.model_fields. intros H. set_unfold in H.
  repeat (destruct H as [->|H]; [discriminate|]). destruct H.
Qed.

(** In an environment that sets nothing, [Settings()] returns the
    defaults, whatever the coercions are. *)
Lemma Settings_init_defaults parse_bool parse_float parse_int :
  settings.Settings_init parse_bool parse_float parse_int ∅
  = py.Return default_settings.
Proof. vm_compute. reflexivity. Qed.

(** C6, as stated, fails: no attribute of [Settings] is an integer with
    default 3. *)
Lemma config_surface_counterexample :
  ~ exists fi, fi ∈ settings.model_fields
               /\ settings.annot fi = settings.Int
               /\ settings.default fi = settings.DInt 3.
Proof. intros (fi & Hin & Hint & _). exact (no_Int_field fi Hin Hint). Qed.

(** C6, amended.  [Settings] declares [router_confidence_threshold] as a
    float with default 0.7, bounded by 0.0 and 1.0, and [Settings()] in an
    environment that sets nothing returns that default; the class has ten
    attributes, none of them an integer, and none a re-route count. *)
Theorem config_surface :
  settings.lookup_field "router_confidence_threshold"
    = Some {| settings.name := "router_confidence_threshold";
              settings.annot := settings.Float;
              settings.default := settings.DFloat 0.7;
              settings.ge := Some 0.0%float; settings.le := Some 1.0%float |}
  /\ (forall parse_bool parse_float parse_int,
        exists v, settings.Settings_init parse_bool parse_float parse_int ∅ = py.Return v
                  /\ settings.router_confidence_threshold v = 0.7%float)
  /\ (forall fi, fi ∈ settings.model_fields -> settings.annot fi <> settings.Int)
  /\ settings.name <$> settings.model_fields
     = ["openai_api_key"; "tavily_api_key"; "langchain_tracing_v2";
        "langchain_api_key"; "langchain_project"; "database_url";
        "chroma_persist_directory"; "qdrant_url"; "qdrant_api_key";
        "router_confidence_threshold"].
Proof.
  split; [reflexivity|]. split; [|split; [exact no_Int_field|reflexivity]].
  intros pb pf pi. exists default_settings.
  split; [apply Settings_init_defaults|reflexivity].
Qed.

(** ** The memoized settings *)

Section Memo.

Variables (parse_bool : string -> option bool)
          (parse_float : string -> option float)
          (parse_int : string -> option Z).

Local Abbreviation get_settings := (settings.get_settings parse_bool parse_float parse_int).
Local Abbreviation step := (settings.step parse_bool parse_float parse_int).
Local Abbreviation run := (settings.run parse_bool parse_float parse_int).

Lemma get_settings_fills_cache p o p' :
  get_settings p = (py.Return o, p') -> settings.cache p' = Some o.
Proof.
  unfold settings.get_settings.
  destruct (settings.cache p) as [c|] eqn:Hc.
  - intros [= <- <-]. exact Hc.
  - destruct (settings.Settings_init _ _ _ _); intros [= <- <-]. reflexivity.
Qed.

Lemma get_settings_hit p o :
  settings.cache p = Some o -> get_settings p = (py.Return o, p).
Proof. unfold settings.get_settings. intros ->. reflexivity. Qed.

Lemma run_cons p ev evs :
  run p (ev :: evs)
  = ((fst (step p ev) ++ fst (run (snd (step p ev)) evs))%list,
     snd (run (snd (step p ev)) evs)).
Proof.
  cbn [settings.run]. destruct (step p ev) as [rs q]. cbn [fst snd].
  destruct (run q evs) as [rs' q']. reflexivity.
Qed.

(** With a filled cache, a step keeps the cache, the allocator and the read
    count, and a call returns the cached object. *)
Lemma step_cached p o ev :
  settings.cache p = Some o ->
  Forall (eq (py.Return o)) (fst (step p ev))
  /\ settings.cache (snd (step p ev)) = Some o
  /\ settings.env_reads (snd (step p ev)) = settings.env_reads p
  /\ settings.next_id (snd (step p ev)) = settings.next_id p.
Proof.
  intros Hc. destruct ev as [|k v|k]; cbn [settings.step].
  - rewrite (get_settings_hit p o Hc). cbn [fst snd].
    repeat split; [repeat constructor|exact Hc].
  - cbn. repeat split; [constructor|exact Hc].
  - cbn. repeat split; [constructor|exact Hc].
Qed.

Lemma run_cached o evs : forall p,
  settings.cache p = Some o ->
  Forall (eq (py.Return o)) (fst (run p evs))
  /\ settings.cache (snd (run p evs)) = Some o
  /\ settings.env_reads (snd (run p evs)) = settings.env_reads p
  /\ settings.next_id (snd (run p evs)) = settings.next_id p.
Proof.
  induction evs as [|ev evs IH]; intros p Hc.
  - cbn. repeat split; [constructor|exact Hc].
  - rewrite run_cons. cbn [fst snd].
    destruct (step_cached p o ev Hc) as (Hs & Hc' & Hr & Hn).
    destruct (IH _ Hc') as (Hall & Hc'' & Hr' & Hn').
    repeat split.
    + apply Forall_app. split; assumption.
    + exact Hc''.
    + rewrite Hr'. exact Hr.
    + rewrite Hn'. exact Hn.
Qed.

(** A first call that raises stores nothing: the cache stays empty and the
    environment has been read. *)
Lemma get_settings_raise_not_cached p e p' :
  get_settings p = (py.Raise e, p') ->
  settings.cache p' = None /\ settings.env_reads p' = S (settings.env_reads p).
Proof.
  unfold settings.get_settings.
  destruct (settings.cache p) as [c|] eqn:Hc; [discriminate|].
  destruct (settings.Settings_init _ _ _ _); [discriminate|].
  intros [= <- <-]. split; reflexivity.
Qed.

End Memo.

(** C10.  Once a call of [get_settings()] has returned an instance, every
    later call in the process returns that same object (same identity, same
    contents), whatever happens to the environment in between, and none of
    them reads the environment again. *)
Theorem get_settings_memoized parse_bool parse_float parse_int
    (p p' : settings.process) (o : settings.object)
    (Hfirst : settings.get_settings parse_bool parse_float parse_int p = (py.Return o, p'))
    (later : list settings.event) :
  let after := settings.run parse_bool parse_float parse_int p' later in
  Forall (eq (py.Return o)) (fst after)
  /\ settings.env_reads (snd after) = settings.env_reads p'
  /\ settings.cache (snd after) = Some o.
Proof.
  intros after. subst after.
  pose proof (get_settings_fills_cache _ _ _ _ _ _ Hfirst) as Hc.
  destruct (run_cached parse_bool parse_float parse_int o later p' Hc) as (H1 & H2 & H3 & _).
  auto.
Qed.

(** ** The evaluation harness *)

(** A string is equal to itself; a NaN is not, so this is not a fact
    about every value. *)
Lemma eq_refl_VStr (str : string) : py.eq (py.VStr str) (py.VStr str) = true.
Proof. apply String.eqb_refl. Qed.

Lemma sum_correct_returns (results : list (gmap string py.value)) :
  Forall eval_router.has_correct results ->
  eval_router.sum_correct results
  = py.Return (length (eval_router.correct_records results)).
Proof.
  induction 1 as [|r rs [c Hc] _ IH]; [reflexivity|].
  cbn [eval_router.sum_correct eval_router.correct_records List.filter].
  unfold eval_router.getitem. rewrite Hc, IH. cbn.
  destruct (py.truthy c); reflexivity.
Qed.

Lemma correct_records_length (results : list (gmap string py.value)) :
  length (eval_router.correct_records results) <= length results.
Proof.
  unfold eval_router.correct_records.
  induction results as [|r rs IH]; cbn [List.filter length]; [lia|].
  destruct (r !! "correct") as [c|]; [destruct (py.truthy c)|]; cbn [length]; lia.
Qed.

Lemma ratio_as_division (c n : nat) :
  0 < n ->
  (Z.of_nat c # Pos.of_nat n == inject_Z (Z.of_nat c) / inject_Z (Z.of_nat n))%Q.
Proof.
  intros Hn. rewrite Qmake_Qdiv.
  replace (Z.pos (Pos.of_nat n)) with (Z.of_nat n); [reflexivity|].
  destruct n as [|n]; [lia|]. rewrite <- Pos.of_nat_succ. lia.
Qed.

Lemma ratio_in_unit_interval (c n : nat) :
  c <= n -> 0 < n -> (0 <= Z.of_nat c # Pos.of_nat n)%Q /\ (Z.of_nat c # Pos.of_nat n <= 1)%Q.
Proof.
  intros Hc Hn. unfold Qle. cbn [Qnum Qden].
  assert (Z.pos (Pos.of_nat n) = Z.of_nat n) as ->.
  { destruct n as [|n]; [lia|]. rewrite <- Pos.of_nat_succ. lia. }
  lia.
Qed.

Lemma compute_accuracy_nonempty (results : list (gmap string py.value)) :
  Forall eval_router.has_correct results ->
  results <> [] ->
  eval_router.compute_accuracy results
  = py.Return (Z.of_nat (length (eval_router.correct_records results))
               # Pos.of_nat (length results))%Q.
Proof.
  intros Hrecords Hne. destruct results as [|r rs]; [congruence|].
  unfold eval_router.compute_accuracy.
  rewrite (sum_correct_returns _ Hrecords). reflexivity.
Qed.

(** C9.  On a list of records that all carry a ['correct'] field,
    [compute_accuracy] returns; it returns 0 on the empty list and otherwise
    the number of records whose ['correct'] field is true divided by the
    number of records; the value lies between 0 and 1. *)
Theorem compute_accuracy_spec (results : list (gmap string py.value))
    (Hrecords : Forall eval_router.has_correct results) :
  (results = [] -> eval_router.compute_accuracy results = py.Return 0%Q)
  /\ exists q : Q,
       eval_router.compute_accuracy results = py.Return q
       /\ (results <> [] ->
           (q == inject_Z (Z.of_nat (length (eval_router.correct_records results)))
                 / inject_Z (Z.of_nat (length results)))%Q)
       /\ (0 <= q)%Q /\ (q <= 1)%Q.
Proof.
  split; [intros ->; reflexivity|].
  destruct results as [|r rs].
  - exists 0%Q. split; [reflexivity|]. split; [intros Hne; destruct Hne; reflexivity|].
    split; [apply Qle_refl|discriminate].
  - rewrite (compute_accuracy_nonempty _ Hrecords) by discriminate.
    eexists. split; [reflexivity|].
    pose proof (correct_records_length (r :: rs)) as Hle.
    assert (0 < length (r :: rs)) as Hpos by (cbn; lia).
    split; [intros _; apply ratio_as_division; exact Hpos|].
    apply ratio_in_unit_interval; assumption.
Qed.

Lemma bind_Return_inv {A B} (m : py.result A) (k : A -> py.result B) (b : B) :
  m ≫= k = py.Return b -> exists a, m = py.Return a /\ k a = py.Return b.
Proof. destruct m as [a|e]; [intros H; exists a; split; [reflexivity|exact H]|discriminate]. Qed.

(** Every record [run_router_on_dataset] builds carries a boolean
    ['correct'] field. *)
Lemma run_router_on_item_has_correct router_fn item r :
  eval_router.run_router_on_item router_fn item = py.Return r ->
  eval_router.has_correct r.
Proof.
  unfold eval_router.run_router_on_item, eval_router.has_correct. intros H.
  apply bind_Return_inv in H as (expected & _ & H).
  apply bind_Return_inv in H as (predicted & _ & H).
  apply bind_Return_inv in H as (id & _ & H).
  apply bind_Return_inv in H as (query & _ & H).
  injection H as <-. eexists. by simplify_map_eq.
Qed.

Lemma run_router_on_dataset_has_correct router_fn data : forall results,
  eval_router.run_router_on_dataset data router_fn = py.Return results ->
  Forall eval_router.has_correct results.
Proof.
  induction data as [|item data IH]; intros results; cbn [eval_router.run_router_on_dataset].
  - intros [= <-]. constructor.
  - intros H.
    apply bind_Return_inv in H as (r & Hr & H).
    apply bind_Return_inv in H as (rs & Hrs & H).
    injection H as <-. constructor; [|apply IH; exact Hrs].
    exact (run_router_on_item_has_correct _ _ _ Hr).
Qed.

(** Without a router the harness takes the golden intent as the
    prediction, so every record whose intent is equal to itself is correct
    ([test_eval_harness_stub]). *)
Lemma stub_records_correct data :
  Forall eval_router_tests.intent_self_equal data ->
  forall results,
  eval_router.run_router_on_dataset data None = py.Return results ->
  Forall (fun r : gmap string py.value => r !! "correct" = Some (py.VBool true)) results.
Proof.
  induction 1 as [|item data Hitem _ IH]; intros results;
    cbn [eval_router.run_router_on_dataset].
  - intros [= <-]. constructor.
  - intros H.
    apply bind_Return_inv in H as (r & Hr & H).
    apply bind_Return_inv in H as (rs & Hrs & H).
    injection H as <-. constructor; [|apply IH; exact Hrs].
    unfold eval_router.run_router_on_item in Hr.
    apply bind_Return_inv in Hr as (expected & Hexp & Hr).
    apply bind_Return_inv in Hr as (predicted & [= <-] & Hr).
    apply bind_Return_inv in Hr as (id & _ & Hr).
    apply bind_Return_inv in Hr as (query & _ & Hr).
    injection Hr as <-.
    unfold eval_router.getitem in Hexp.
    destruct (item !! "intent") as [e|] eqn:He; [|discriminate Hexp].
    injection Hexp as ->. rewrite (Hitem expected He). by simplify_map_eq.
Qed.

Lemma all_correct_records (results : list (gmap string py.value)) :
  Forall (fun r : gmap string py.value => r !! "correct" = Some (py.VBool true)) results ->
  eval_router.correct_records results = results.
Proof.
  unfold eval_router.correct_records.
  induction 1 as [|r rs Hr _ IH]; cbn [List.filter]; [reflexivity|].
  rewrite Hr. cbn. rewrite IH. reflexivity.
Qed.

Lemma stub_accuracy data results :
  Forall eval_router_tests.intent_self_equal data ->
  eval_router.run_router_on_dataset data None = py.Return results ->
  results <> [] ->
  exists q, eval_router.compute_accuracy results = py.Return q /\ (q == 1)%Q.
Proof.
  intros Hself Hrun Hne.
  pose proof (stub_records_correct _ Hself _ Hrun) as Hall.
  assert (Forall eval_router.has_correct results) as Hrec.
  { eapply Forall_impl; [exact Hall|]. intros r Hr. exists (py.VBool true). exact Hr. }
  rewrite (compute_accuracy_nonempty _ Hrec Hne), (all_correct_records _ Hall).
  eexists. split; [reflexivity|].
  assert (0 < length results) as Hpos by (destruct results; [congruence|cbn; lia]).
  rewrite (ratio_as_division _ _ Hpos).
  apply Qmult_inv_r. destruct results; [congruence|]. discriminate.
Qed.

(** ** The graph executor: conversation history *)



Section History.

Variable handler : orchestrator.node -> state.AgentState -> py.result state.AgentState.
Variable user_turn : nat -> state.BaseMessage.





End History.


(** ** The graph executor: termination *)

Lemma overwrite_unset {A} (old new : option (option A)) :
  state.is_set old = false -> state.is_set new = false ->
  state.is_set (orchestrator.overwrite old new) = false.
Proof. destruct new as [[?|]|]; cbn; intros; congruence. Qed.

Lemma fatal_exactly_one s e :
  orchestrator.pending s -> orchestrator.exactly_one_terminal (orchestrator.fatal s e).
Proof.
  intros [Hf _]. unfold orchestrator.exactly_one_terminal, orchestrator.fatal.
  cbn. rewrite Hf. reflexivity.
Qed.

(** Merging an update that does not set [final_response] into a pending
    state: either [error] got set and the state is terminal, or the state
    is still pending. *)
Lemma merge_pending s u :
  orchestrator.pending s ->
  state.is_set (state.final_response u) = false ->
  if state.is_set (state.error (orchestrator.merge s u))
  then orchestrator.exactly_one_terminal (orchestrator.merge s u)
  else orchestrator.pending (orchestrator.merge s u).
Proof.
  intros [Hf He] Hu.
  assert (state.is_set (state.final_response (orchestrator.merge s u)) = false) as Hm
    by (apply overwrite_unset; assumption).
  destruct (state.is_set (state.error (orchestrator.merge s u))) eqn:Herr.
  - unfold orchestrator.exactly_one_terminal. rewrite Hm, Herr. reflexivity.
  - split; assumption.
Qed.

(** An update without the two terminal keys keeps a pending state pending. *)
Lemma merge_stays_pending s u :
  orchestrator.pending s ->
  state.final_response u = None -> state.error u = None ->
  orchestrator.pending (orchestrator.merge s u).
Proof.
  intros Hp Hf He. unfold orchestrator.pending.
  cbn [orchestrator.merge state.final_response state.error].
  rewrite Hf, He. exact Hp.
Qed.

Section Termination.

Variable handler : orchestrator.node -> state.AgentState -> py.result state.AgentState.
Variable user_turn : nat -> state.BaseMessage.

(** finalResponse is set only by the Synthesizer. *)
Hypothesis only_synthesizer :
  forall n s u, n <> orchestrator.Synthesizer -> handler n s = py.Return u ->
    state.is_set (state.final_response u) = false.

(** The Synthesizer produces finalResponse, and does not report an error
    through its update. *)
Hypothesis synthesizer_responds :
  forall s u, handler orchestrator.Synthesizer s = py.Return u ->
    state.is_set (state.final_response u) = true
    /\ state.is_set (state.error u) = false.

Lemma synthesize_exactly_one s :
  orchestrator.pending s ->
  orchestrator.exactly_one_terminal (orchestrator.synthesize handler s).
Proof.
  intros Hp. unfold orchestrator.synthesize.
  destruct (handler orchestrator.Synthesizer s) as [u|e] eqn:Hs; [|apply fatal_exactly_one, Hp].
  destruct (synthesizer_responds s u Hs) as [Hf He]. destruct Hp as [_ Hpe].
  unfold orchestrator.exactly_one_terminal.
  cbn [orchestrator.merge state.final_response state.error].
  rewrite (overwrite_unset _ _ Hpe He).
  destruct (state.final_response u) as [[?|]|]; [reflexivity|discriminate|discriminate].
Qed.

Lemma branch_exactly_one n s :
  n <> orchestrator.Synthesizer ->
  orchestrator.pending s ->
  orchestrator.exactly_one_terminal (orchestrator.branch handler n s).
Proof.
  intros Hn Hp. unfold orchestrator.branch.
  destruct (handler n s) as [u|e] eqn:Hh; [|apply fatal_exactly_one, Hp].
  cbv zeta. pose proof (merge_pending s u Hp (only_synthesizer n s u Hn Hh)) as Hm.
  destruct (state.is_set (state.error (orchestrator.merge s u))); [exact Hm|].
  apply synthesize_exactly_one, Hm.
Qed.

Lemma dispatch_exactly_one remaining : forall asked s,
  orchestrator.pending s ->
  orchestrator.exactly_one_terminal
    (orchestrator.dispatch handler user_turn remaining asked s).
Proof.
  induction remaining as [|k IH]; intros asked s Hp; cbn [orchestrator.dispatch].
  - apply branch_exactly_one; [discriminate|].
    apply merge_stays_pending; [exact Hp|reflexivity|reflexivity].
  - destruct (handler orchestrator.Router s) as [u|e] eqn:Hr; [|apply fatal_exactly_one, Hp].
    cbv zeta.
    pose proof (merge_pending s u Hp
                  (only_synthesizer orchestrator.Router s u ltac:(discriminate) Hr)) as Hm.
    destruct (state.is_set (state.error (orchestrator.merge s u))); [exact Hm|].
    destruct (state.route (orchestrator.merge s u)) as [r|]; [|apply fatal_exactly_one, Hm].
    destruct r; try (apply branch_exactly_one; [discriminate|exact Hm]).
    destruct (handler orchestrator.ClarificationHandler _) as [c|e] eqn:Hc;
      [|apply fatal_exactly_one, Hm].
    pose proof (merge_pending _ c Hm
                  (only_synthesizer orchestrator.ClarificationHandler _ c ltac:(discriminate) Hc)) as Hm'.
    destruct (state.is_set (state.error (orchestrator.merge _ c))); [exact Hm'|].
    apply IH.
    apply merge_stays_pending; [exact Hm'|reflexivity|reflexivity].
Qed.

End Termination.

(** C2.  Every request the executor processes ends with exactly one of
    [final_response] and [error] set, for every handler table that keeps
    the two contracts of the specification: only the Synthesizer sets
    finalResponse, and the Synthesizer always produces it. *)
Theorem run_sets_exactly_one
    (handler : orchestrator.node -> state.AgentState -> py.result state.AgentState)
    (max_reroutes : nat) (user_turn : nat -> state.BaseMessage)
    (only_synthesizer :
       forall n s u, n <> orchestrator.Synthesizer -> handler n s = py.Return u ->
         state.is_set (state.final_response u) = false)
    (synthesizer_responds :
       forall s u, handler orchestrator.Synthesizer s = py.Return u ->
         state.is_set (state.final_response u) = true
         /\ state.is_set (state.error u) = false)
    (userQuery : string) (priorHistory : list state.BaseMessage) :
  orchestrator.exactly_one_terminal
    (orchestrator.run handler max_reroutes user_turn userQuery priorHistory).
Proof.
  unfold orchestrator.run.
  apply dispatch_exactly_one; [assumption|assumption|].
  split; reflexivity.
Qed.

(** ** Instances *)

Lemma compute_accuracy_spec_witness :
  Forall eval_router.has_correct sample_results
  /\ exists q : Q,
       eval_router.compute_accuracy sample_results = py.Return q
       /\ (q == inject_Z 2 / inject_Z 3)%Q
       /\ (0 <= q)%Q /\ (q <= 1)%Q.
Proof.
  assert (Forall eval_router.has_correct sample_results) as H.
  { repeat constructor; eexists; vm_compute; reflexivity. }
  split; [exact H|].
  destruct (compute_accuracy_spec sample_results H) as (_ & q & Hq & Hdiv & H0 & H1).
  exists q. split; [exact Hq|]. split; [|split; assumption].
  apply Hdiv. discriminate.
Defined.

Lemma get_settings_memoized_witness :
  settings.get_settings no_bool no_float no_int (settings.start ∅)
    = (py.Return first_object, after_first_call)
  /\ Forall (eq (py.Return first_object))
       (fst (settings.run no_bool no_float no_int after_first_call later_events))
  /\ settings.env_reads
       (snd (settings.run no_bool no_float no_int after_first_call later_events)) = 1
  /\ settings.cache
       (snd (settings.run no_bool no_float no_int after_first_call later_events))
     = Some first_object.
Proof.
  assert (settings.get_settings no_bool no_float no_int (settings.start ∅)
          = (py.Return first_object, after_first_call)) as H
    by (vm_compute; reflexivity).
  split; [exact H|].
  exact (get_settings_memoized no_bool no_float no_int _ _ _ H later_events).
Defined.

Lemma scenario_only_synthesizer n s u :
  n <> orchestrator.Synthesizer -> scenario_handler n s = py.Return u ->
  state.is_set (state.final_response u) = false.
Proof.
  intros Hn H. destruct n; try discriminate H; try congruence;
    injection H as <-; reflexivity.
Defined.

Lemma scenario_synthesizer_responds s u :
  scenario_handler orchestrator.Synthesizer s = py.Return u ->
  state.is_set (state.final_response u) = true
  /\ state.is_set (state.error u) = false.
Proof. intros [= <-]. split; reflexivity. Defined.

Lemma run_sets_exactly_one_witness :
  orchestrator.exactly_one_terminal
    (orchestrator.run scenario_handler 3 no_turn "What is your return policy?" []).
Proof.
  exact (run_sets_exactly_one scenario_handler 3 no_turn
           scenario_only_synthesizer scenario_synthesizer_responds
           "What is your return policy?" []).
Defined.

(** The return-policy scenario ends with the answer drawn from the policy
    context and no error. *)
Lemma scenario_run :
  let s := orchestrator.run scenario_handler 3 no_turn "What is your return policy?" [] in
  state.route s = Some state.policy
  /\ state.final_response s = Some (Some "Items can be returned within 30 days.")
  /\ state.error s = None.
Proof. vm_compute. repeat split. Qed.

(** With the handler table the repository has today, the first Router
    visit raises, so every request ends with [error] set and no
    [final_response]. *)
Lemma run_on_stubs max_reroutes user_turn userQuery priorHistory :
  let s := orchestrator.run orchestrator.nodes_handler (S max_reroutes) user_turn
             userQuery priorHistory in
  state.error s = Some (Some "Phase 1") /\ state.final_response s = None.
Proof. split; reflexivity. Qed.

(* ===================================================================== *)
(** * Further properties of the sources *)
(* ===================================================================== *)

(** ** tests/evaluation/eval_router.py: [run_router_on_dataset] *)

Lemma getitem_Return (d : gmap string py.value) k v :
  eval_router.getitem d k = py.Return v <-> d !! k = Some v.
Proof.
  unfold eval_router.getitem. destruct (d !! k) as [w|]; split;
    intros H; try discriminate H; injection H as ->; reflexivity.
Qed.

Lemma getitem_Raise (d : gmap string py.value) k e :
  eval_router.getitem d k = py.Raise e <-> d !! k = None /\ e = py.KeyError k.
Proof.
  unfold eval_router.getitem. destruct (d !! k) as [w|]; split.
  - discriminate.
  - intros [H _]. discriminate H.
  - intros [= <-]. split; reflexivity.
  - intros [_ ->]. reflexivity.
Qed.

Lemma run_router_on_item_records router_fn item r :
  eval_router.run_router_on_item router_fn item = py.Return r ->
  eval_router_tests.records item r.
Proof.
  unfold eval_router.run_router_on_item. intros H.
  apply bind_Return_inv in H as (expected & Hexp & H).
  apply bind_Return_inv in H as (predicted & _ & H).
  apply bind_Return_inv in H as (id & Hid & H).
  apply bind_Return_inv in H as (query & Hq & H).
  apply getitem_Return in Hexp, Hid, Hq.
  injection H as <-. unfold eval_router_tests.records.
  rewrite Hexp, Hid, Hq. repeat split; try by simplify_map_eq.
  exists predicted, expected. repeat split; by simplify_map_eq.
Qed.

Lemma run_router_on_dataset_Forall2 router_fn data : forall results,
  eval_router.run_router_on_dataset data router_fn = py.Return results ->
  Forall2 eval_router_tests.records data results.
Proof.
  induction data as [|item data IH]; intros results;
    cbn [eval_router.run_router_on_dataset].
  - intros [= <-]. constructor.
  - intros H.
    apply bind_Return_inv in H as (r & Hr & H).
    apply bind_Return_inv in H as (rs & Hrs & H).
    injection H as <-. constructor; [|apply IH; exact Hrs].
    exact (run_router_on_item_records _ _ _ Hr).
Qed.

(** X1.  When [run_router_on_dataset] returns, it returns one record per
    item of the dataset, in the order of the dataset; each record copies
    the item's id, query and intent and its ['correct'] field is the
    comparison of the predicted with the expected intent. *)
Theorem run_router_on_dataset_records router_fn data results
    (Hrun : eval_router.run_router_on_dataset data router_fn = py.Return results) :
  Forall2 eval_router_tests.records data results
  /\ length results = length data.
Proof.
  pose proof (run_router_on_dataset_Forall2 _ _ _ Hrun) as H.
  split; [exact H|]. symmetry. exact (Forall2_length _ _ _ H).
Qed.

Lemma stub_item_returns item :
  py.returns (eval_router.run_router_on_item None item) = true
  <-> eval_router_tests.well_formed item.
Proof.
  unfold eval_router.run_router_on_item, eval_router_tests.well_formed,
    eval_router.getitem.
  destruct (item !! "intent") as [e|]; cbn;
    [|split; [discriminate|intros [[? H] _]; discriminate H]].
  destruct (item !! "id") as [i|]; cbn;
    [|split; [discriminate|intros (_ & [? H] & _); discriminate H]].
  destruct (item !! "query") as [q|]; cbn;
    [|split; [discriminate|intros (_ & _ & [? H]); discriminate H]].
  split; [intros _; repeat split; eexists; reflexivity|reflexivity].
Qed.

(** X2.  Without a router, [run_router_on_dataset] returns exactly when
    every item of the dataset has the keys ['intent'], ['id'] and
    ['query']; one item without one of them makes the whole call raise. *)
Theorem stub_run_returns_iff data :
  py.returns (eval_router.run_router_on_dataset data None) = true
  <-> Forall eval_router_tests.well_formed data.
Proof.
  induction data as [|item data IH]; cbn [eval_router.run_router_on_dataset].
  - split; [constructor|reflexivity].
  - rewrite Forall_cons, <- IH, <- stub_item_returns.
    destruct (eval_router.run_router_on_item None item) as [r|e]; cbn.
    + destruct (eval_router.run_router_on_dataset data None) as [rs|e]; cbn; tauto.
    + split; [discriminate|intros [H _]; exact H].
Qed.

Lemma run_router_on_item_raises f item expected query e :
  item !! "intent" = Some expected ->
  item !! "query" = Some query ->
  f (eval_router_tests.router_input query) = py.Raise e ->
  eval_router.run_router_on_item (Some f) item = py.Raise e.
Proof.
  intros Hi Hq Hf. unfold eval_router.run_router_on_item, eval_router.getitem.
  rewrite Hi, Hq. cbn. unfold eval_router_tests.router_input in Hf.
  rewrite Hf. reflexivity.
Qed.

(** X3.  [run_router_on_dataset] catches nothing: when the router raises
    on an item and the items before it were processed, the call raises the
    router's exception, and the records built so far are lost. *)
Theorem router_exception_propagates f before item after done expected query e
    (Hbefore : eval_router.run_router_on_dataset before (Some f) = py.Return done)
    (Hintent : item !! "intent" = Some expected)
    (Hquery : item !! "query" = Some query)
    (Hraise : f (eval_router_tests.router_input query) = py.Raise e) :
  eval_router.run_router_on_dataset (before ++ item :: after) (Some f) = py.Raise e.
Proof.
  revert done Hbefore.
  induction before as [|b before IH]; intros done Hbefore.
  - cbn [app eval_router.run_router_on_dataset].
    rewrite (run_router_on_item_raises f item expected query e Hintent Hquery Hraise).
    reflexivity.
  - cbn [app eval_router.run_router_on_dataset] in *.
    apply bind_Return_inv in Hbefore as (r & Hr & Hbefore).
    apply bind_Return_inv in Hbefore as (rs & Hrs & _).
    rewrite Hr. cbn. rewrite (IH rs Hrs). reflexivity.
Qed.

Lemma silent_item_correct f item r :
  (forall st out, f st = py.Return out -> out !! "intent" = None) ->
  eval_router_tests.intent_self_equal item ->
  eval_router.run_router_on_item (Some f) item = py.Return r ->
  r !! "correct" = Some (py.VBool true).
Proof.
  intros Hsilent Hself H. unfold eval_router.run_router_on_item in H.
  apply bind_Return_inv in H as (expected & Hexp & H).
  apply getitem_Return in Hexp. apply Hself in Hexp.
  apply bind_Return_inv in H as (predicted & Hp & H).
  apply bind_Return_inv in Hp as (query & _ & Hp).
  apply bind_Return_inv in Hp as (out & Hout & Hp).
  injection Hp as <-. unfold eval_router.get in H.
  rewrite (Hsilent _ _ Hout) in H. cbn [default] in H.
  apply bind_Return_inv in H as (id & _ & H).
  apply bind_Return_inv in H as (query' & _ & H).
  injection H as <-. rewrite Hexp. by simplify_map_eq.
Qed.

Lemma accuracy_of_all_correct (results : list (gmap string py.value)) :
  Forall (fun r : gmap string py.value => r !! "correct" = Some (py.VBool true)) results ->
  results <> [] ->
  exists q, eval_router.compute_accuracy results = py.Return q /\ (q == 1)%Q.
Proof.
  intros Hall Hne.
  assert (Forall eval_router.has_correct results) as Hrec.
  { eapply Forall_impl; [exact Hall|]. intros r Hr. exists (py.VBool true). exact Hr. }
  rewrite (compute_accuracy_nonempty _ Hrec Hne), (all_correct_records _ Hall).
  eexists. split; [reflexivity|].
  assert (0 < length results) as Hpos by (destruct results; [congruence|cbn; lia]).
  rewrite (ratio_as_division _ _ Hpos).
  apply Qmult_inv_r. destruct results; [congruence|]. discriminate.
Qed.

(** X4.  A router whose answers carry no ['intent'] key is scored as
    correct on every item whose expected intent is equal to itself (any
    string; not a NaN): [out.get("intent", expected)] falls back to the
    expected intent, so on a dataset of such items every record is correct
    and the accuracy of a non-empty run is 1. *)
Theorem missing_intent_counts_as_correct f data results
    (Hsilent : forall st out, f st = py.Return out -> out !! "intent" = None)
    (Hself : Forall eval_router_tests.intent_self_equal data)
    (Hrun : eval_router.run_router_on_dataset data (Some f) = py.Return results) :
  Forall (fun r : gmap string py.value => r !! "correct" = Some (py.VBool true)) results
  /\ (results <> [] ->
      exists q, eval_router.compute_accuracy results = py.Return q /\ (q == 1)%Q).
Proof.
  assert (Forall (fun r : gmap string py.value =>
                    r !! "correct" = Some (py.VBool true)) results) as Hall.
  { revert results Hrun.
    induction Hself as [|item data Hitem _ IH]; intros results;
      cbn [eval_router.run_router_on_dataset].
    - intros [= <-]. constructor.
    - intros H.
      apply bind_Return_inv in H as (r & Hr & H).
      apply bind_Return_inv in H as (rs & Hrs & H).
      injection H as <-. constructor; [|apply IH; exact Hrs].
      exact (silent_item_correct f item r Hsilent Hitem Hr). }
  split; [exact Hall|]. intros Hne. exact (accuracy_of_all_correct _ Hall Hne).
Qed.

(** ** tests/evaluation/eval_router.py: [compute_accuracy] *)

Lemma sum_correct_cases (results : list (gmap string py.value)) :
  (Forall eval_router.has_correct results
   /\ exists n, eval_router.sum_correct results = py.Return n)
  \/ (~ Forall eval_router.has_correct results
      /\ eval_router.sum_correct results = py.Raise (py.KeyError "correct")).
Proof.
  induction results as [|r rs IH]; cbn [eval_router.sum_correct].
  - left. split; [constructor|eexists; reflexivity].
  - unfold eval_router.getitem.
    destruct (r !! "correct") as [c|] eqn:Hc; cbn.
    + destruct IH as [[Hall [n Hn]]|[Hnot Hraise]].
      * left. split; [constructor; [exists c; exact Hc|exact Hall]|].
        rewrite Hn. eexists. reflexivity.
      * right. split; [intros H; apply Hnot; inversion H; assumption|].
        rewrite Hraise. reflexivity.
    + right. split; [|reflexivity].
      intros H. inversion H as [|? ? [c Hc'] _]; subst.
      unfold eval_router.has_correct in *. congruence.
Qed.

(** X5.  [compute_accuracy] returns exactly when every record has a
    ['correct'] key (in particular on the empty list); a record without it
    makes the call raise [KeyError('correct')]. *)
Theorem compute_accuracy_missing_field (results : list (gmap string py.value)) :
  (py.returns (eval_router.compute_accuracy results) = true
   <-> Forall eval_router.has_correct results)
  /\ (~ Forall eval_router.has_correct results ->
      eval_router.compute_accuracy results = py.Raise (py.KeyError "correct")).
Proof.
  destruct results as [|r rs].
  - split; [split; [constructor|reflexivity]|]. intros H. destruct H. constructor.
  - unfold eval_router.compute_accuracy.
    destruct (sum_correct_cases (r :: rs)) as [[Hall [n Hn]]|[Hnot Hraise]].
    + rewrite Hn. cbn. split; [tauto|]. intros H. destruct (H Hall).
    + rewrite Hraise. cbn. split; [|reflexivity].
      split; [discriminate|]. intros H. destruct (Hnot H).
Qed.

Lemma sum_correct_Permutation (a b : list (gmap string py.value)) :
  a ≡ₚ b -> eval_router.sum_correct a = eval_router.sum_correct b.
Proof.
  induction 1 as [|x a b _ IH|x y a|a b c _ IH1 _ IH2].
  - reflexivity.
  - cbn [eval_router.sum_correct]. rewrite IH. reflexivity.
  - cbn [eval_router.sum_correct]. unfold eval_router.getitem.
    destruct (x !! "correct") as [cx|], (y !! "correct") as [cy|]; cbn;
      try reflexivity.
    destruct (eval_router.sum_correct a) as [n|e]; cbn; [|reflexivity].
    f_equal. lia.
  - congruence.
Qed.

(** X6.  The accuracy does not depend on the order of the records:
    reordering the list changes neither the value nor, when a record lacks
    the ['correct'] key, the exception. *)
Theorem compute_accuracy_Permutation (a b : list (gmap string py.value))
    (Hperm : a ≡ₚ b) :
  eval_router.compute_accuracy a = eval_router.compute_accuracy b.
Proof.
  unfold eval_router.compute_accuracy.
  pose proof (sum_correct_Permutation a b Hperm) as Hsum.
  pose proof (Permutation_length Hperm) as Hlen.
  destruct a as [|x a], b as [|y b]; try discriminate Hlen; [reflexivity|].
  rewrite Hsum, Hlen. reflexivity.
Qed.

Lemma filter_length_all {A} (p : A -> bool) (l : list A) :
  length (List.filter p l) = length l <-> Forall (fun x => p x = true) l.
Proof.
  induction l as [|x l IH]; cbn [List.filter length].
  - split; [constructor|reflexivity].
  - pose proof (List.filter_length_le p l) as Hle.
    rewrite Forall_cons. destruct (p x); cbn [length].
    + rewrite <- IH. split; [intros [= H]; auto|intros [_ H]; congruence].
    + split; [lia|intros [H _]; discriminate H].
Qed.

Lemma filter_length_none {A} (p : A -> bool) (l : list A) :
  length (List.filter p l) = 0 <-> Forall (fun x => p x = false) l.
Proof.
  induction l as [|x l IH]; cbn [List.filter length].
  - split; [constructor|reflexivity].
  - rewrite Forall_cons. destruct (p x); cbn [length].
    + split; [discriminate|intros [H _]; discriminate H].
    + rewrite IH. tauto.
Qed.

Lemma ratio_is_one (c n : nat) :
  0 < n -> (Z.of_nat c # Pos.of_nat n == 1)%Q <-> c = n.
Proof.
  intros Hn. unfold Qeq. cbn [Qnum Qden].
  assert (Z.pos (Pos.of_nat n) = Z.of_nat n) as ->.
  { destruct n as [|n]; [lia|]. rewrite <- Pos.of_nat_succ. lia. }
  lia.
Qed.

Lemma ratio_is_zero (c n : nat) :
  (Z.of_nat c # Pos.of_nat n == 0)%Q <-> c = 0.
Proof. unfold Qeq. cbn [Qnum Qden]. lia. Qed.

Lemma correct_field_iff (b : bool) (results : list (gmap string py.value)) :
  Forall eval_router.has_correct results ->
  Forall (fun r : gmap string py.value =>
            match r !! "correct" with
            | Some c => py.truthy c
            | None => false
            end = b) results
  <-> Forall (fun r : gmap string py.value =>
                exists c, r !! "correct" = Some c /\ py.truthy c = b) results.
Proof.
  induction 1 as [|r rs [c Hc] _ IH]; [split; constructor|].
  rewrite !Forall_cons, IH, Hc.
  split; intros [H Hrest]; (split; [|exact Hrest]).
  - exists c. split; [reflexivity|exact H].
  - destruct H as (c' & [= <-] & H). exact H.
Qed.

(** X7.  On a non-empty list of records that all have the ['correct'] key,
    the accuracy is 1 exactly when every record's ['correct'] is true, and
    0 exactly when none is. *)
Theorem compute_accuracy_extremes (results : list (gmap string py.value))
    (Hrecords : Forall eval_router.has_correct results)
    (Hne : results <> []) :
  exists q, eval_router.compute_accuracy results = py.Return q
    /\ ((q == 1)%Q <->
        Forall (fun r : gmap string py.value =>
                  exists c, r !! "correct" = Some c /\ py.truthy c = true) results)
    /\ ((q == 0)%Q <->
        Forall (fun r : gmap string py.value =>
                  exists c, r !! "correct" = Some c /\ py.truthy c = false) results).
Proof.
  rewrite (compute_accuracy_nonempty _ Hrecords Hne).
  eexists. split; [reflexivity|].
  assert (0 < length results) as Hpos by (destruct results; [congruence|cbn; lia]).
  rewrite (ratio_is_one _ _ Hpos), ratio_is_zero.
  unfold eval_router.correct_records.
  rewrite filter_length_all, filter_length_none.
  split; apply correct_field_iff; exact Hrecords.
Qed.

(** ** tests/evaluation/eval_router.py: the test functions *)

Lemma intents_Return data : forall l,
  eval_router_tests.intents data = py.Return l ->
  Forall2 (fun (d : gmap string py.value) v => d !! "intent" = Some v) data l.
Proof.
  induction data as [|d data IH]; intros l; cbn [eval_router_tests.intents].
  - intros [= <-]. constructor.
  - intros H.
    apply bind_Return_inv in H as (i & Hi & H).
    apply bind_Return_inv in H as (rest & Hrest & H).
    injection H as <-. constructor; [apply getitem_Return, Hi|apply IH, Hrest].
Qed.

Lemma count_cons v l x :
  eval_router_tests.count (v :: l) x
  = (if py.eq v x then 1 else 0) + eval_router_tests.count l x.
Proof.
  unfold eval_router_tests.count. cbn [List.filter].
  destruct (py.eq v x); reflexivity.
Qed.

(** A value is equal to at most one of the five intent names, and to one
    of them only if it is that string. *)
Lemma intent_hits (v : py.value) :
  let hit n := if py.eq v (py.VStr n) then 1 else 0 in
  let hits := hit "policy" + hit "sql" + hit "web" + hit "product_info" + hit "complaint" in
  hits <= 1 /\ (hits = 1 -> eval_router_tests.is_intent v).
Proof.
  destruct v as [| b | z | f obj | s | l | items]; cbn; try (split; [lia|discriminate]).
  destruct (String.eqb_spec s "policy") as [->|_];
    [split; [cbn; lia|intros _; exists state.intent_policy; reflexivity]|].
  destruct (String.eqb_spec s "sql") as [->|_];
    [split; [cbn; lia|intros _; exists state.intent_sql; reflexivity]|].
  destruct (String.eqb_spec s "web") as [->|_];
    [split; [cbn; lia|intros _; exists state.intent_web; reflexivity]|].
  destruct (String.eqb_spec s "product_info") as [->|_];
    [split; [cbn; lia|intros _; exists state.intent_product_info; reflexivity]|].
  destruct (String.eqb_spec s "complaint") as [->|_];
    [split; [cbn; lia|intros _; exists state.intent_complaint; reflexivity]|].
  split; [lia|discriminate].
Qed.

(** The five counts add up to at most the length of the list; when they
    add up to the length, every entry is an intent. *)
Lemma intent_counts (l : list py.value) :
  let total :=
    eval_router_tests.count l (py.VStr "policy")
    + eval_router_tests.count l (py.VStr "sql")
    + eval_router_tests.count l (py.VStr "web")
    + eval_router_tests.count l (py.VStr "product_info")
    + eval_router_tests.count l (py.VStr "complaint") in
  total <= length l /\ (total = length l -> Forall eval_router_tests.is_intent l).
Proof.
  induction l as [|v l [IHle IHall]]; [split; [cbn; lia|constructor]|].
  cbv zeta in *. rewrite !count_cons. cbn [length].
  destruct (intent_hits v) as [Hle Hone]. cbv zeta in Hle, Hone.
  split; [lia|]. intros Htotal.
  constructor; [apply Hone; lia|apply IHall; lia].
Qed.

Lemma golden_passed data :
  eval_router_tests.test_golden_dataset_loads data = eval_router_tests.passed ->
  length data = 10
  /\ exists l,
       Forall2 (fun (d : gmap string py.value) v => d !! "intent" = Some v) data l
       /\ Forall eval_router_tests.is_intent l
       /\ forall i : state.IntentType,
            eval_router_tests.count l (py.VStr (state.IntentType_value i)) = 2.
Proof.
  unfold eval_router_tests.test_golden_dataset_loads.
  destruct (Nat.eqb_spec (length data) 10) as [Hlen|_]; [|discriminate].
  destruct (eval_router_tests.intents data) as [l|e] eqn:Hl; [|discriminate].
  apply intents_Return in Hl. cbn [eval_router_tests.assert_two_of_each].
  destruct (Nat.eqb_spec (eval_router_tests.count l (py.VStr "policy")) 2) as [H1|_];
    [|discriminate].
  destruct (Nat.eqb_spec (eval_router_tests.count l (py.VStr "sql")) 2) as [H2|_];
    [|discriminate].
  destruct (Nat.eqb_spec (eval_router_tests.count l (py.VStr "web")) 2) as [H3|_];
    [|discriminate].
  destruct (Nat.eqb_spec (eval_router_tests.count l (py.VStr "product_info")) 2) as [H4|_];
    [|discriminate].
  destruct (Nat.eqb_spec (eval_router_tests.count l (py.VStr "complaint")) 2) as [H5|_];
    [|discriminate].
  intros _. split; [exact Hlen|]. exists l. split; [exact Hl|].
  split; [|intros []; assumption].
  apply intent_counts. cbv zeta. rewrite H1, H2, H3, H4, H5.
  rewrite <- (Forall2_length _ _ _ Hl). lia.
Qed.

(** X8.  A dataset on which [test_golden_dataset_loads] passes has ten
    items, every item has an ['intent'] key whose value is one of the five
    literals of [IntentType], and each literal occurs exactly twice: the
    five counts of two leave no room for any other value. *)
Theorem golden_dataset_only_intents data
    (Hpassed : eval_router_tests.test_golden_dataset_loads data = eval_router_tests.passed) :
  length data = 10
  /\ Forall (fun d : gmap string py.value =>
               exists i : state.IntentType,
                 d !! "intent" = Some (py.VStr (state.IntentType_value i))) data
  /\ forall i : state.IntentType,
       length (List.filter
                 (fun d : gmap string py.value =>
                    match d !! "intent" with
                    | Some v => py.eq v (py.VStr (state.IntentType_value i))
                    | None => false
                    end)
                 data) = 2.
Proof.
  destruct (golden_passed data Hpassed) as (Hlen & l & Hl & Hall & Hcount).
  split; [exact Hlen|]. split.
  - clear Hcount Hlen Hpassed. revert Hall.
    induction Hl as [|d v data l Hd _ IH]; intros Hall; [constructor|].
    inversion Hall as [|? ? [i ->] Hall']; subst.
    constructor; [exists i; exact Hd|apply IH; exact Hall'].
  - intros i. rewrite <- (Hcount i). clear Hcount Hlen Hall Hpassed.
    unfold eval_router_tests.count.
    induction Hl as [|d v data l Hd _ IH]; [reflexivity|].
    cbn [List.filter]. rewrite Hd.
    destruct (py.eq v (py.VStr (state.IntentType_value i)));
      cbn [length]; rewrite IH; reflexivity.
Qed.

Lemma stub_run_returns data :
  Forall eval_router_tests.well_formed data ->
  exists results, eval_router.run_router_on_dataset data None = py.Return results.
Proof.
  induction 1 as [|item data Hitem _ [rs IH]]; [eexists; reflexivity|].
  cbn [eval_router.run_router_on_dataset].
  apply stub_item_returns in Hitem.
  destruct (eval_router.run_router_on_item None item) as [r|e]; [|discriminate Hitem].
  rewrite IH. eexists. reflexivity.
Qed.

(** X9.  The two tests compose: on a dataset on which
    [test_golden_dataset_loads] passes and whose items also have the keys
    ['id'] and ['query'], [test_eval_harness_stub] passes: the stub run
    returns ten records and its accuracy is 1. *)
Theorem harness_stub_test_passes data
    (Hgolden : eval_router_tests.test_golden_dataset_loads data = eval_router_tests.passed)
    (Hkeys : Forall (fun d : gmap string py.value =>
                       is_Some (d !! "id") /\ is_Some (d !! "query")) data) :
  eval_router_tests.test_eval_harness_stub data = eval_router_tests.passed.
Proof.
  destruct (golden_passed data Hgolden) as (Hlen & l & Hl & _ & _).
  assert (Forall eval_router_tests.well_formed data) as Hwf.
  { clear Hlen Hgolden. induction Hl as [|d v data l Hd _ IH]; [constructor|].
    inversion Hkeys as [|? ? [Hid Hq] Hkeys']; subst.
    constructor; [|apply IH; exact Hkeys'].
    split; [exists v; exact Hd|split; assumption]. }
  destruct (stub_run_returns data Hwf) as [results Hrun].
  unfold eval_router_tests.test_eval_harness_stub. rewrite Hrun.
  pose proof (Forall2_length _ _ _ (run_router_on_dataset_Forall2 _ _ _ Hrun)) as Hlen'.
  assert (length results = 10) as Hten by lia.
  rewrite Hten. cbn [Nat.eqb].
  assert (results <> []) as Hne by (intros ->; discriminate Hten).
  assert (Forall eval_router_tests.intent_self_equal data) as Hself.
  { destruct (golden_passed data Hgolden) as (_ & l' & Hl' & Hall & _).
    clear -Hl' Hall. revert Hall.
    induction Hl' as [|d v data l' Hd _ IH]; intros Hall; [constructor|].
    inversion Hall as [|? ? [i ->] Hall']; subst.
    constructor; [|apply IH; exact Hall'].
    intros e He. rewrite Hd in He. injection He as <-. apply eq_refl_VStr. }
  destruct (accuracy_of_all_correct results (stub_records_correct _ Hself _ Hrun) Hne)
    as (q & -> & Hq).
  apply Qeq_bool_iff in Hq. rewrite Hq. reflexivity.
Qed.

(** ** src/config/settings.py: [Settings] *)

Lemma lookup_folded_Some (env : gmap string string) n raw :
  settings.lookup_folded env n = Some raw -> settings.reads env n raw.
Proof.
  unfold settings.lookup_folded, settings.reads.
  destruct (map_to_list _) as [|[k v] l] eqn:Hl; [discriminate|].
  cbn. intros [= <-].
  assert ((k, v) ∈ map_to_list
            (filter (fun kv : string * string => py.lower kv.1 = n) env)) as Hin
    by (rewrite Hl; left).
  apply elem_of_map_to_list, map_lookup_filter_Some in Hin as [Hk Hn].
  exists k. split; [exact Hn|exact Hk].
Qed.

Lemma lookup_folded_None (env : gmap string string) n :
  settings.lookup_folded env n = None <-> settings.silent env n.
Proof.
  unfold settings.lookup_folded, settings.silent. split.
  - destruct (map_to_list _) as [|[k v] l] eqn:Hl; [|discriminate].
    intros _ k Hk. apply map_to_list_empty_iff in Hl.
    destruct (env !! k) as [v|] eqn:Hv; [|reflexivity].
    exfalso. apply (map_filter_empty_not_lookup _ _ k v Hl); [exact Hk|exact Hv].
  - intros Hsilent.
    assert (filter (fun kv : string * string => py.lower kv.1 = n) env = ∅) as ->.
    { apply map_empty_filter. intros k v Hv Hk. cbn in Hk.
      rewrite (Hsilent k Hk) in Hv. discriminate Hv. }
    rewrite map_to_list_empty. reflexivity.
Qed.



Section SettingsFacts.

Variables (parse_bool : string -> option bool)
          (parse_float : string -> option float)
          (parse_int : string -> option Z).

Local Abbreviation get := (settings.get parse_bool parse_float parse_int).
Local Abbreviation Settings_init := (settings.Settings_init parse_bool parse_float parse_int).




(** The ten attributes of a returned instance, each as its own read of
    the environment. *)
Lemma Settings_init_inv env v :
  Settings_init env = py.Return v ->
  get "openai_api_key" env ≫= settings.as_optional_str "openai_api_key"
    = py.Return (settings.openai_api_key v)
  /\ get "tavily_api_key" env ≫= settings.as_optional_str "tavily_api_key"
    = py.Return (settings.tavily_api_key v)
  /\ get "langchain_tracing_v2" env ≫= settings.as_bool "langchain_tracing_v2"
    = py.Return (settings.langchain_tracing_v2 v)
  /\ get "langchain_api_key" env ≫= settings.as_optional_str "langchain_api_key"
    = py.Return (settings.langchain_api_key v)
  /\ get "langchain_project" env ≫= settings.as_optional_str "langchain_project"
    = py.Return (settings.langchain_project v)
  /\ get "database_url" env ≫= settings.as_str "database_url"
    = py.Return (settings.database_url v)
  /\ get "chroma_persist_directory" env ≫= settings.as_optional_str "chroma_persist_directory"
    = py.Return (settings.chroma_persist_directory v)
  /\ get "qdrant_url" env ≫= settings.as_optional_str "qdrant_url"
    = py.Return (settings.qdrant_url v)
  /\ get "qdrant_api_key" env ≫= settings.as_optional_str "qdrant_api_key"
    = py.Return (settings.qdrant_api_key v)
  /\ get "router_confidence_threshold" env ≫= settings.as_float "router_confidence_threshold"
    = py.Return (settings.router_confidence_threshold v).
Proof.
  unfold settings.Settings_init. intros H.
  apply bind_Return_inv in H as (a & Ha & H).
  apply bind_Return_inv in H as (b & Hb & H).
  apply bind_Return_inv in H as (c & Hc & H).
  apply bind_Return_inv in H as (d & Hd & H).
  apply bind_Return_inv in H as (e & He & H).
  apply bind_Return_inv in H as (f & Hf & H).
  apply bind_Return_inv in H as (g & Hg & H).
  apply bind_Return_inv in H as (h & Hh & H).
  apply bind_Return_inv in H as (i & Hi & H).
  apply bind_Return_inv in H as (j & Hj & H).
  injection H as <-. cbn. repeat split; assumption.
Qed.

(** What a returned threshold went through: the default, or a coerced
    environment value inside the bounds. *)
Lemma threshold_read (env : gmap string string) x :
  get "router_confidence_threshold" env ≫= settings.as_float "router_confidence_threshold"
    = py.Return x ->
  match settings.lookup_folded env "router_confidence_threshold" with
  | None => x = 0.7%float
  | Some raw => parse_float raw = Some x
                /\ ((0.0 <=? x)%float && (x <=? 1.0)%float) = true
  end.
Proof.
  unfold settings.get. cbn [settings.lookup_field settings.model_fields List.find].
  cbn. unfold settings.validate. cbn [settings.name settings.annot settings.default].
  change (py.lower "router_confidence_threshold") with "router_confidence_threshold".
  destruct (settings.lookup_folded env "router_confidence_threshold") as [raw|]; cbn.
  - destruct (parse_float raw) as [y|]; [|discriminate].
    unfold settings.within. cbn [settings.ge settings.le].
    destruct ((0.0 <=? y)%float && (y <=? 1.0)%float) eqn:Hin; cbn; [|discriminate].
    intros [= <-]. split; [reflexivity|exact Hin].
  - intros [= <-]. reflexivity.
Qed.

End SettingsFacts.


(** X11.  Every instance [Settings()] returns has its threshold between
    0.0 and 1.0, whatever the environment holds ([ge=0.0], [le=1.0], and
    the default 0.7 lies inside). *)
Theorem threshold_within_bounds parse_bool parse_float parse_int
    (env : gmap string string) (v : settings.Settings)
    (Hinit : settings.Settings_init parse_bool parse_float parse_int env = py.Return v) :
  (0.0 <=? settings.router_confidence_threshold v)%float = true
  /\ (settings.router_confidence_threshold v <=? 1.0)%float = true.
Proof.
  apply Settings_init_inv in Hinit as (_ & _ & _ & _ & _ & _ & _ & _ & _ & Hj).
  apply threshold_read in Hj.
  destruct (settings.lookup_folded env "router_confidence_threshold") as [raw|].
  - destruct Hj as [_ Hin]. apply andb_true_iff in Hin. exact Hin.
  - rewrite Hj. split; reflexivity.
Qed.

(** X12.  When the environment sets the threshold, under whatever
    spelling of [router_confidence_threshold] in upper and lower case, and
    every variable that does so holds a string that cannot be coerced to a
    float or a float outside 0.0 .. 1.0 (or not a number), [Settings()]
    raises: no instance is returned. *)
Theorem threshold_out_of_bounds_rejected parse_bool parse_float parse_int
    (env : gmap string string)
    (Hset : exists raw, settings.reads env "router_confidence_threshold" raw)
    (Hbad : forall raw, settings.reads env "router_confidence_threshold" raw ->
            match parse_float raw with
            | Some x => ((0.0 <=? x)%float && (x <=? 1.0)%float) = false
            | None => True
            end) :
  py.returns (settings.Settings_init parse_bool parse_float parse_int env) = false.
Proof.
  destruct (settings.Settings_init parse_bool parse_float parse_int env) as [v|e] eqn:Hinit;
    [|reflexivity].
  apply Settings_init_inv in Hinit as (_ & _ & _ & _ & _ & _ & _ & _ & _ & Hj).
  apply threshold_read in Hj.
  destruct (settings.lookup_folded env "router_confidence_threshold") as [raw|] eqn:Hl.
  - apply lookup_folded_Some in Hl. specialize (Hbad raw Hl).
    destruct Hj as [Hx Hin]. rewrite Hx in Hbad. congruence.
  - apply lookup_folded_None in Hl. destruct Hset as (raw & k & Hk & Hv).
    rewrite (Hl k Hk) in Hv. discriminate Hv.
Qed.

Section StringFields.

Variables (parse_bool : string -> option bool)
          (parse_float : string -> option float)
          (parse_int : string -> option Z).

Local Abbreviation get := (settings.get parse_bool parse_float parse_int).




End StringFields.


(** ** src/config/settings.py: [get_settings] *)

Section CacheFacts.

Variables (parse_bool : string -> option bool)
          (parse_float : string -> option float)
          (parse_int : string -> option Z).

Local Abbreviation get_settings := (settings.get_settings parse_bool parse_float parse_int).
Local Abbreviation step := (settings.step parse_bool parse_float parse_int).
Local Abbreviation run := (settings.run parse_bool parse_float parse_int).

(** What one step does to a process whose cache is empty. *)
Lemma step_empty p ev :
  settings.cache p = None ->
  let rs := fst (step p ev) in
  let p' := snd (step p ev) in
  settings.env_reads p' = settings.env_reads p + length rs
  /\ match settings.cache p' with
     | None => Forall (fun r => py.returns r = false) rs
               /\ settings.next_id p' = settings.next_id p
     | Some o => rs = [py.Return o]
                 /\ settings.object_id o = settings.next_id p
                 /\ settings.next_id p' = S (settings.next_id p)
     end.
Proof.
  intros Hc. destruct ev as [|k v|k]; cbn [settings.step].
  - unfold settings.get_settings. rewrite Hc.
    destruct (settings.Settings_init _ _ _ _) as [v|e]; cbn.
    + split; [lia|]. repeat split.
    + split; [lia|]. split; [repeat constructor|reflexivity].
  - cbn. rewrite Hc. split; [lia|]. split; [constructor|reflexivity].
  - cbn. rewrite Hc. split; [lia|]. split; [constructor|reflexivity].
Qed.

Lemma all_return_counts o (rs : list (py.result settings.object)) :
  Forall (eq (py.Return o)) rs -> raised rs = 0.
Proof.
  unfold raised. induction 1 as [|r rs <- _ IH]; [reflexivity|exact IH].
Qed.

Lemma none_returns_counts (rs : list (py.result settings.object)) :
  Forall (fun r => py.returns r = false) rs ->
  raised rs = length rs /\ some_returned rs = false.
Proof.
  unfold raised, some_returned.
  induction 1 as [|r rs Hr _ [IH1 IH2]]; [split; reflexivity|].
  cbn [List.filter existsb]. rewrite Hr. cbn. rewrite IH1, IH2. split; reflexivity.
Qed.

Lemma raised_app (a b : list (py.result settings.object)) :
  raised (a ++ b) = raised a + raised b.
Proof. unfold raised. rewrite List.filter_app, length_app. reflexivity. Qed.

Lemma some_returned_app (a b : list (py.result settings.object)) :
  some_returned (a ++ b) = some_returned a || some_returned b.
Proof. apply existsb_app. Qed.

(** A run from a process with an empty cache: the environment is read
    once for every call that raised and once for the first that returned;
    every returned object is the one in the cache at the end; at most one
    object is allocated. *)
Lemma run_empty evs : forall p,
  settings.cache p = None ->
  let rs := fst (run p evs) in
  let p' := snd (run p evs) in
  settings.env_reads p'
    = settings.env_reads p + raised rs + (if some_returned rs then 1 else 0)
  /\ Forall (fun r => match r with
                      | py.Return o => settings.cache p' = Some o
                                       /\ settings.object_id o = settings.next_id p
                      | py.Raise _ => True
                      end) rs
  /\ settings.next_id p' <= S (settings.next_id p).
Proof.
  induction evs as [|ev evs IH]; intros p Hc.
  - cbn. repeat split; [lia|constructor|lia].
  - cbv zeta. rewrite run_cons. cbn [fst snd].
    destruct (step_empty p ev Hc) as [Hreads Hstep]. cbv zeta in Hreads, Hstep.
    destruct (settings.cache (snd (step p ev))) as [o|] eqn:Hc'.
    + destruct Hstep as (Hrs & Hid & Hnext).
      destruct (run_cached parse_bool parse_float parse_int o evs _ Hc')
        as (Hall & Hfinal & Hreads' & Hnext').
      rewrite Hrs in *. rewrite raised_app, some_returned_app.
      rewrite (all_return_counts o _ Hall). cbn [raised some_returned existsb List.filter
        py.returns negb length orb app] in *.
      split; [lia|]. split; [|lia].
      constructor; [split; assumption|].
      eapply Forall_impl; [exact Hall|]. intros r <-. split; assumption.
    + destruct Hstep as [Hnone Hnext].
      destruct (IH _ Hc') as (Hreads' & Hall & Hnext'). cbv zeta in Hreads', Hall, Hnext'.
      destruct (none_returns_counts _ Hnone) as [Hraised Hret].
      rewrite raised_app, some_returned_app, Hraised, Hret. cbn [orb].
      split; [lia|]. split; [|lia].
      apply Forall_app. split.
      * eapply Forall_impl; [exact Hnone|]. intros [o|e] Hr; [discriminate Hr|exact I].
      * rewrite Hnext in Hall. exact Hall.
Qed.

End CacheFacts.

(** X14.  In a process that starts with an empty cache, whatever mix of
    calls and environment changes follows, every call of [get_settings()]
    that returns hands out one and the same object, the first one built,
    which is the one the cache holds at the end; [Settings()] builds at
    most one object, even when earlier calls raised. *)
Theorem get_settings_single_instance parse_bool parse_float parse_int
    (env : gmap string string) (evs : list settings.event) :
  let after := settings.run parse_bool parse_float parse_int (settings.start env) evs in
  Forall (fun r => match r with
                   | py.Return o => settings.cache (snd after) = Some o
                                    /\ settings.object_id o = 0
                   | py.Raise _ => True
                   end) (fst after)
  /\ settings.next_id (snd after) <= 1.
Proof.
  destruct (run_empty parse_bool parse_float parse_int evs (settings.start env) eq_refl)
    as (_ & Hall & Hnext).
  split; [exact Hall|exact Hnext].
Qed.

(** X15.  [lru_cache] stores no exception: in a process that starts with
    an empty cache the environment is read once by every call that raises
    and once by the first call that returns, and never again. *)
Theorem get_settings_env_reads parse_bool parse_float parse_int
    (env : gmap string string) (evs : list settings.event) :
  let after := settings.run parse_bool parse_float parse_int (settings.start env) evs in
  settings.env_reads (snd after)
  = raised (fst after) + (if some_returned (fst after) then 1 else 0).
Proof.
  destruct (run_empty parse_bool parse_float parse_int evs (settings.start env) eq_refl)
    as (Hreads & _ & _).
  exact Hreads.
Qed.

(** ** Instances of the further properties *)

(** With a router that returns on every item, the run returns. *)
Lemma run_returns_with_router f data :
  Forall (fun item : gmap string py.value =>
            eval_router_tests.well_formed item
            /\ forall q, item !! "query" = Some q ->
                 py.returns (f (eval_router_tests.router_input q)) = true) data ->
  exists results, eval_router.run_router_on_dataset data (Some f) = py.Return results.
Proof.
  induction 1 as [|item data [([e He] & [i Hi] & [q Hq]) Hf] _ [rs IH]];
    [eexists; reflexivity|].
  cbn [eval_router.run_router_on_dataset]. specialize (Hf q Hq).
  unfold eval_router.run_router_on_item, eval_router.getitem.
  rewrite He, Hi, Hq. cbn.
  unfold eval_router_tests.router_input in Hf.
  destruct (f _) as [out|ex]; [|discriminate Hf].
  cbn. rewrite IH. eexists. reflexivity.
Qed.

Lemma sample_dataset_well_formed : Forall eval_router_tests.well_formed sample_dataset.
Proof. repeat constructor; eexists; vm_compute; reflexivity. Qed.

Lemma sample_dataset_self_equal :
  Forall eval_router_tests.intent_self_equal sample_dataset.
Proof.
  repeat constructor; intros e He; vm_compute in He; injection He as <-; reflexivity.
Qed.

(** What an environment with one variable reads. *)
Lemma reads_singleton (K v n raw : string) :
  settings.reads (<[K := v]> ∅) n raw -> py.lower K = n /\ raw = v.
Proof.
  intros (k & Hk & Hv). apply lookup_insert_Some in Hv as [[-> ->]|[_ Hv]].
  - split; [exact Hk|reflexivity].
  - rewrite lookup_empty in Hv. discriminate Hv.
Qed.

Lemma run_router_on_dataset_records_witness :
  exists results,
    eval_router.run_router_on_dataset sample_dataset None = py.Return results
    /\ Forall2 eval_router_tests.records sample_dataset results
    /\ length results = 10.
Proof.
  destruct (stub_run_returns sample_dataset sample_dataset_well_formed) as [results H].
  exists results. split; [exact H|].
  destruct (run_router_on_dataset_records None sample_dataset results H) as [Hrec Hlen].
  split; [exact Hrec|]. rewrite Hlen. reflexivity.
Defined.

Lemma router_exception_propagates_witness :
  eval_router.run_router_on_dataset
    (take 4 sample_dataset ++ golden_item "w1" "Tell me a joke" "web" :: drop 5 sample_dataset)
    (Some picky_router)
  = py.Raise (py.NotImplementedError "Phase 1").
Proof.
  assert (exists done,
            eval_router.run_router_on_dataset (take 4 sample_dataset) (Some picky_router)
            = py.Return done) as [done H].
  { apply run_returns_with_router.
    repeat constructor; try (eexists; vm_compute; reflexivity);
      intros q Hq; vm_compute in Hq; injection Hq as <-; vm_compute; reflexivity. }
  apply (router_exception_propagates picky_router
           (take 4 sample_dataset)
           (golden_item "w1" "Tell me a joke" "web")
           (drop 5 sample_dataset)
           done (py.VStr "web") (py.VStr "Tell me a joke")
           (py.NotImplementedError "Phase 1") H);
    vm_compute; reflexivity.
Defined.

Lemma silent_router_has_no_intent st out :
  silent_router st = py.Return out -> out !! "intent" = None.
Proof. intros [= <-]. reflexivity. Defined.

Lemma missing_intent_counts_as_correct_witness :
  exists results,
    eval_router.run_router_on_dataset sample_dataset (Some silent_router) = py.Return results
    /\ Forall (fun r : gmap string py.value => r !! "correct" = Some (py.VBool true)) results
    /\ (results <> [] ->
        exists q, eval_router.compute_accuracy results = py.Return q /\ (q == 1)%Q).
Proof.
  assert (exists results,
            eval_router.run_router_on_dataset sample_dataset (Some silent_router)
            = py.Return results) as [results H].
  { apply run_returns_with_router.
    eapply Forall_impl; [exact sample_dataset_well_formed|].
    intros item Hitem. split; [exact Hitem|reflexivity]. }
  exists results. split; [exact H|].
  exact (missing_intent_counts_as_correct silent_router sample_dataset results
           silent_router_has_no_intent sample_dataset_self_equal H).
Defined.

Lemma compute_accuracy_Permutation_witness :
  reverse sample_results ≡ₚ sample_results
  /\ eval_router.compute_accuracy (reverse sample_results)
     = eval_router.compute_accuracy sample_results.
Proof.
  split; [apply reverse_Permutation|].
  exact (compute_accuracy_Permutation _ _ (reverse_Permutation sample_results)).
Defined.

Lemma compute_accuracy_extremes_witness :
  exists q, eval_router.compute_accuracy sample_results = py.Return q
    /\ ((q == 1)%Q <->
        Forall (fun r : gmap string py.value =>
                  exists c, r !! "correct" = Some c /\ py.truthy c = true) sample_results)
    /\ ((q == 0)%Q <->
        Forall (fun r : gmap string py.value =>
                  exists c, r !! "correct" = Some c /\ py.truthy c = false) sample_results).
Proof.
  apply (compute_accuracy_extremes sample_results).
  - repeat constructor; eexists; vm_compute; reflexivity.
  - discriminate.
Defined.

Lemma golden_dataset_only_intents_witness :
  eval_router_tests.test_golden_dataset_loads sample_dataset = eval_router_tests.passed
  /\ length sample_dataset = 10
  /\ Forall (fun d : gmap string py.value =>
               exists i : state.IntentType,
                 d !! "intent" = Some (py.VStr (state.IntentType_value i))) sample_dataset.
Proof.
  assert (eval_router_tests.test_golden_dataset_loads sample_dataset
          = eval_router_tests.passed) as H by (vm_compute; reflexivity).
  split; [exact H|].
  destruct (golden_dataset_only_intents sample_dataset H) as (Hlen & Hall & _).
  split; assumption.
Defined.

Lemma harness_stub_test_passes_witness :
  eval_router_tests.test_eval_harness_stub sample_dataset = eval_router_tests.passed.
Proof.
  apply harness_stub_test_passes.
  - vm_compute; reflexivity.
  - repeat constructor; eexists; vm_compute; reflexivity.
Defined.


Lemma threshold_within_bounds_witness :
  exists v,
    settings.Settings_init no_bool two_floats no_int (env_threshold "0.2") = py.Return v
    /\ (0.0 <=? settings.router_confidence_threshold v)%float = true
    /\ (settings.router_confidence_threshold v <=? 1.0)%float = true.
Proof.
  destruct (settings.Settings_init no_bool two_floats no_int (env_threshold "0.2"))
    as [v|e] eqn:H; [|vm_compute in H; discriminate H].
  exists v. split; [reflexivity|].
  exact (threshold_within_bounds no_bool two_floats no_int _ v H).
Defined.

Lemma threshold_out_of_bounds_rejected_witness :
  py.returns (settings.Settings_init no_bool two_floats no_int (env_upper_threshold "1.5"))
  = false.
Proof.
  apply (threshold_out_of_bounds_rejected no_bool two_floats no_int
           (env_upper_threshold "1.5")).
  - exists "1.5", "ROUTER_CONFIDENCE_THRESHOLD". split; [reflexivity|].
    apply lookup_insert_eq.
  - intros raw Hraw. apply reads_singleton in Hraw as [_ ->]. reflexivity.
Defined.


(** A variable spelled in upper case sets the attribute:
    [ROUTER_CONFIDENCE_THRESHOLD=0.2] gives a threshold of 0.2. *)
Lemma upper_case_variable_is_read :
  exists v,
    settings.Settings_init no_bool two_floats no_int (env_upper_threshold "0.2") = py.Return v
    /\ settings.router_confidence_threshold v = 0.2%float.
Proof. eexists. split; [vm_compute; reflexivity|reflexivity]. Qed.

(** An item whose intent is a NaN is outside the items of X4 and of the
    stub run: a NaN is not equal to itself. *)
Lemma nan_intent_is_not_self_equal :
  ~ eval_router_tests.intent_self_equal (<["intent" := py.VFloat nan 0]> ∅).
Proof.
  intros H. specialize (H (py.VFloat nan 0) (lookup_insert_eq _ _ _)).
  discriminate H.
Qed.
